(** * Validated bibliography entries (src/logic/reference.py)

    A shallow embedding of the three attrs classes [Book], [Article] and
    [Inproceedings] together with the four validator functions of the
    module, and the properties of construction and attribute assignment
    that follow from them.

    Conventions of the embedding.
    - A Python value is a [PyVal]; a [str] is a sequence of code points
      below U+0100, written as a Rocq [string] (one [ascii] per code
      point), on which the classifications used by [str.split] and
      [str.isalpha] are given exactly.
    - A Python [float] is a [spec_float] (sign, mantissa, exponent).
    - A call that may raise returns a [result]; the exception raised is a
      [PyExc].
    - [datetime.now().year] is the argument [year_now] of every function
      that reads the clock. *)

From Stdlib Require Import ZArith Ascii String DecimalString Floats.SpecFloat.
From stdpp Require Import gmap strings list fin_maps.

Local Open Scope Z_scope.

(** ** Python values and exceptions *)

Inductive PyVal : Type :=
| PNone
| PBool (b : bool)
| PInt (n : Z)
| PFloat (f : spec_float)
| PStr (s : string).

Inductive PyType : Type := T_str | T_int.

(** [type(v).__name__] *)
Definition type_name (v : PyVal) : string :=
  match v with
  | PNone => "NoneType"
  | PBool _ => "bool"
  | PInt _ => "int"
  | PFloat _ => "float"
  | PStr _ => "str"
  end.

(** [isinstance(v, t)]; [bool] is a subclass of [int]. *)
Definition isinstance (v : PyVal) (t : PyType) : bool :=
  match t, v with
  | T_str, PStr _ => true
  | T_int, PInt _ => true
  | T_int, PBool _ => true
  | _, _ => false
  end.

(** Exceptions.  Those raised by the module carry their message; those
    raised by the interpreter or by attrs carry the arguments from which
    their message is built. *)
Inductive PyExc : Type :=
| ValueError (msg : string)
| TypeError (msg : string)
| AttributeError (msg : string)
| OverflowError (msg : string)
| InvalidLiteral (s : string)
  (* ValueError: invalid literal for int() with base 10: repr(s) *)
| DigitLimit (digits : Z)
  (* ValueError: Exceeds the limit (4300 digits) for integer string
     conversion: value has [digits] digits *)
| NotInstance (attr : string) (t : PyType) (v : PyVal)
  (* TypeError of attrs.validators.instance_of; its args name the
     attribute, the expected type and the value *)
| MissingArguments (names : list string)
  (* TypeError: __init__() missing required arguments *)
| UnexpectedKeyword.
  (* TypeError: __init__() got an unexpected keyword argument *)

Inductive result (A : Type) : Type :=
| Ok (a : A)
| Raise (e : PyExc).
Arguments Ok {A} a.
Arguments Raise {A} e.

Definition rbind {A B : Type} (r : result A) (k : A -> result B) : result B :=
  match r with
  | Ok a => k a
  | Raise e => Raise e
  end.

Notation "x <- r ;; k" := (rbind r (fun x => k))
  (at level 100, r at next level, right associativity).
Notation "r ;;; k" := (rbind r (fun _ => k))
  (at level 100, right associativity).

(** ** Strings *)

Module PyString.

Definition code (c : ascii) : N := N_of_ascii c.

Definition between (lo hi : N) (c : ascii) : bool :=
  ((lo <=? code c) && (code c <=? hi))%N.

(** Whitespace of [str.split()] and [str.isspace()]: TAB..CR, FS..US,
    SPACE, NEL (U+0085) and NBSP (U+00A0). *)
Definition isspace_char (c : ascii) : bool :=
  between 9 13 c || between 28 32 c || between 133 133 c
  || between 160 160 c.

(** Letters of [str.isalpha()] (general categories Lu, Ll, Lt, Lm, Lo):
    A-Z, a-z, U+00AA, U+00B5, U+00BA, U+00C0-U+00D6, U+00D8-U+00F6,
    U+00F8-U+00FF. *)
Definition isalpha_char (c : ascii) : bool :=
  between 65 90 c || between 97 122 c
  || between 170 170 c || between 181 181 c || between 186 186 c
  || between 192 214 c || between 216 246 c || between 248 255 c.

(** The letters the docstring of [check_name] names: [A-Za-z]. *)
Definition isascii_letter (c : ascii) : bool :=
  between 65 90 c || between 97 122 c.

Fixpoint forallb (p : ascii -> bool) (s : string) : bool :=
  match s with
  | EmptyString => true
  | String c s' => p c && forallb p s'
  end.

(** [s.isalpha()]: non-empty and every character is a letter. *)
Definition isalpha (s : string) : bool :=
  match s with
  | EmptyString => false
  | String _ _ => forallb isalpha_char s
  end.

Fixpoint rev_onto (s acc : string) : string :=
  match s with
  | EmptyString => acc
  | String c s' => rev_onto s' (String c acc)
  end.

(** A finished token (kept reversed while it is read) is emitted unless
    it is empty. *)
Definition emit (tok : string) (rest : list string) : list string :=
  match tok with
  | EmptyString => rest
  | String _ _ => rev_onto tok EmptyString :: rest
  end.

Fixpoint split_from (tok : string) (s : string) : list string :=
  match s with
  | EmptyString => emit tok []
  | String c s' =>
      if isspace_char c then emit tok (split_from EmptyString s')
      else split_from (String c tok) s'
  end.

(** [s.split()]: the maximal runs of non-whitespace characters. *)
Definition split (s : string) : list string := split_from EmptyString s.

(** [len(s)] *)
Definition len (s : string) : Z := Z.of_nat (String.length s).

(** [str(n)] for an integer. *)
Definition of_Z (n : Z) : string := NilZero.string_of_int (Z.to_int n).

(** [s.startswith(prefix)] *)
Fixpoint startswith (s prefix : string) {struct prefix} : bool :=
  match prefix with
  | EmptyString => true
  | String c prefix' =>
      match s with
      | EmptyString => false
      | String d s' => Ascii.eqb c d && startswith s' prefix'
      end
  end.

(** [c * n]: a character repeated. *)
Fixpoint replicate (n : nat) (c : ascii) : string :=
  match n with
  | O => EmptyString
  | S n' => String c (replicate n' c)
  end.

End PyString.

(** ** Built-in operations used by the module *)

Module Builtins.
Import PyString.

(** [int(f)] on a float truncates toward zero; NaN and the infinities
    raise. *)
Definition trunc_float (f : spec_float) : result Z :=
  match f with
  | S754_zero _ => Ok 0
  | S754_infinity _ =>
      Raise (OverflowError "cannot convert float infinity to integer")
  | S754_nan => Raise (ValueError "cannot convert float NaN to integer")
  | S754_finite s m e =>
      let a := if 0 <=? e then Z.pos m * 2 ^ e else Z.pos m / 2 ^ (- e) in
      Ok (if s then - a else a)
  end.

(** Whitespace that [int] strips around a literal (C [isspace]), after
    every other Unicode space has been replaced by a blank. *)
Definition is_c_space (c : ascii) : bool :=
  between 9 13 c || between 32 32 c.

Definition to_ascii_space (c : ascii) : ascii :=
  if (code c <? 127)%N then c
  else if isspace_char c then " "%char else "?"%char.

Fixpoint map_chars (f : ascii -> ascii) (s : string) : string :=
  match s with
  | EmptyString => EmptyString
  | String c s' => String (f c) (map_chars f s')
  end.

Fixpoint lstrip (s : string) : string :=
  match s with
  | EmptyString => EmptyString
  | String c s' => if is_c_space c then lstrip s' else s
  end.

Definition is_digit (c : ascii) : bool := between 48 57 c.
Definition digit_value (c : ascii) : Z := Z.of_N (code c) - 48.

(** The default of [sys.int_max_str_digits]. *)
Definition int_max_str_digits : Z := 4300.

(** What reading a literal gives: its value, a syntax error, or more
    digits than the limit allows. *)
Inductive Literal : Type :=
| Value (n : Z)
| Malformed
| OverLimit (digits : Z).

(** The end of the run of digits and underscores: a run that is empty or
    ends in an underscore is a syntax error; then the count of the digits
    (leading zeros included, underscores not) is held against the limit;
    then only whitespace may follow. *)
Definition finish (acc count : Z) (prev_digit : bool) (rest : string) : Literal :=
  if negb prev_digit then Malformed
  else if int_max_str_digits <? count then OverLimit count
  else if forallb is_c_space rest then Value acc
  else Malformed.

(** Decimal digits with single underscores between digits, then
    optional trailing whitespace up to the end of the literal. *)
Fixpoint digits (acc count : Z) (prev_digit : bool) (s : string) : Literal :=
  match s with
  | EmptyString => finish acc count prev_digit s
  | String c s' =>
      if is_digit c then digits (10 * acc + digit_value c) (count + 1) true s'
      else if Ascii.eqb c "_" then
        if prev_digit then digits acc count false s' else Malformed
      else finish acc count prev_digit s
  end.

Definition negate (l : Literal) : Literal :=
  match l with
  | Value n => Value (- n)
  | _ => l
  end.

(** [int(s)] for a string, base 10. *)
Definition int_of_string (s : string) : Literal :=
  match lstrip (map_chars to_ascii_space s) with
  | String "+" s' => digits 0 0 false s'
  | String "-" s' => negate (digits 0 0 false s')
  | s' => digits 0 0 false s'
  end.

(** [int(v)] *)
Definition int (v : PyVal) : result Z :=
  match v with
  | PNone =>
      Raise (TypeError
        "int() argument must be a string, a bytes-like object or a real number, not 'NoneType'")
  | PBool b => Ok (Z.b2z b)
  | PInt n => Ok n
  | PFloat f => trunc_float f
  | PStr s =>
      match int_of_string s with
      | Value n => Ok n
      | Malformed => Raise (InvalidLiteral s)
      | OverLimit d => Raise (DigitLimit d)
      end
  end.

(** The sign of [f - k] for a float [f] and an integer [k], computed
    exactly; [None] for NaN, which compares false with everything. *)
Definition compare_float (f : spec_float) (k : Z) : option comparison :=
  match f with
  | S754_nan => None
  | S754_zero _ => Some (0 ?= k)
  | S754_infinity s => Some (if s then Lt else Gt)
  | S754_finite s m e =>
      let a := if s then Z.neg m else Z.pos m in
      Some (if 0 <=? e then a * 2 ^ e ?= k else a ?= k * 2 ^ (- e))
  end.

Definition unorderable (op : string) (v : PyVal) : PyExc :=
  TypeError ("'" +:+ op +:+ "' not supported between instances of '"
             +:+ type_name v +:+ "' and 'int'").

(** [v > k] and [v < k] for an integer [k]. *)
Definition gt (v : PyVal) (k : Z) : result bool :=
  match v with
  | PInt n => Ok (k <? n)
  | PBool b => Ok (k <? Z.b2z b)
  | PFloat f =>
      Ok (match compare_float f k with Some Gt => true | _ => false end)
  | _ => Raise (unorderable ">" v)
  end.

Definition lt (v : PyVal) (k : Z) : result bool :=
  match v with
  | PInt n => Ok (n <? k)
  | PBool b => Ok (Z.b2z b <? k)
  | PFloat f =>
      Ok (match compare_float f k with Some Lt => true | _ => false end)
  | _ => Raise (unorderable "<" v)
  end.

End Builtins.

(** ** The validators of the module *)

(** A validator is called as [v(instance, attribute, value)]; none of the
    validators here reads the instance, so it is left out.  [year_now]
    is the clock reading available to the call. *)
Definition Validator : Type := Z -> string -> PyVal -> result unit.

Definition year_range_error (year_now : Z) : PyExc :=
  ValueError ("Given year is not in range [500, "
              +:+ PyString.of_Z (year_now + 5) +:+ "]").

(** Checks that publishment year is in a reasonable range. *)
Definition check_year : Validator := fun year_now attribute given_year =>
  above <- Builtins.gt given_year (year_now + 5) ;;
  if above then Raise (year_range_error year_now)
  else
    below <- Builtins.lt given_year 500 ;;
    if below then Raise (year_range_error year_now) else Ok tt.

Definition name_required_error : PyExc :=
  ValueError "First name and surname is required".
Definition name_alphabet_error : PyExc :=
  ValueError "Name has to consists only of alphabet letters".

(** The [for name in split_name] loop: the first token that is not
    alphabetic raises. *)
Fixpoint check_tokens (split_name : list string) : result unit :=
  match split_name with
  | [] => Ok tt
  | name :: rest =>
      if PyString.isalpha name then check_tokens rest
      else Raise name_alphabet_error
  end.

Definition check_name : Validator := fun year_now attribute given_name =>
  match given_name with
  | PStr s =>
      let split_name := PyString.split s in
      let len_n := Z.of_nat (length split_name) in
      if len_n <? 2 then Raise name_required_error
      else check_tokens split_name
  | _ =>
      Raise (AttributeError ("'" +:+ type_name given_name
                             +:+ "' object has no attribute 'split'"))
  end.

Definition too_long_error : PyExc :=
  ValueError "Str length exceeds BibTeX field character limit of 5000".

Definition check_len : Validator := fun year_now attribute given_str =>
  match given_str with
  | PNone => Ok tt
  | PStr s => if 5000 <? PyString.len s then Raise too_long_error else Ok tt
  | _ =>
      Raise (TypeError ("object of type '" +:+ type_name given_str
                        +:+ "' has no len()"))
  end.

Definition not_a_string_error : PyExc :=
  ValueError "Given value is not a string.".

Definition check_str : Validator := fun year_now attribute given_str =>
  match given_str with
  | PNone => Ok tt
  | _ =>
      if isinstance given_str T_str then Ok tt
      else Raise not_a_string_error
  end.

(** ** attrs: attributes, classes, construction and assignment *)

(** [validators.instance_of(t)] *)
Definition instance_of (t : PyType) : Validator := fun year_now attribute value =>
  if isinstance value t then Ok tt else Raise (NotInstance attribute t value).

(** An attribute as [field(default=..., converter=..., validator=[...])]
    declares it; [default = None] is attrs' NOTHING (a required
    attribute), [default = Some PNone] is [default=None]. *)
Record Attribute : Type := field {
  name : string;
  default : option PyVal;
  converter : option (PyVal -> result PyVal);
  validator : list Validator
}.

Definition NOTHING : option PyVal := None.
Definition no_converter : option (PyVal -> result PyVal) := None.

(** [converter=int] *)
Definition int_converter : option (PyVal -> result PyVal) :=
  Some (fun v => n <- Builtins.int v ;; Ok (PInt n)).

Record Class : Type := define {
  cls_name : string;
  cls_attrs : list Attribute
}.

Definition attr_names (cls : Class) : list string := name <$> cls_attrs cls.

(** The instance is the mapping from its slots to their values. *)
Abbreviation Instance := (gmap string PyVal).
Abbreviation Kwargs := (gmap string PyVal).

(** A list of validators runs them in order; the first that raises ends
    the run. *)
Fixpoint run_validators (vs : list Validator) (year_now : Z)
    (attribute : string) (value : PyVal) : result unit :=
  match vs with
  | [] => Ok tt
  | v :: rest =>
      v year_now attribute value ;;;
      run_validators rest year_now attribute value
  end.

Definition convert (a : Attribute) (value : PyVal) : result PyVal :=
  match converter a with
  | Some c => c value
  | None => Ok value
  end.

Definition validate (a : Attribute) (year_now : Z) (value : PyVal) : result unit :=
  run_validators (validator a) year_now (name a) value.

(** The argument bound to an attribute: the keyword if given, else the
    default. *)
Definition argument (kw : Kwargs) (a : Attribute) : option PyVal :=
  match kw !! name a with
  | Some v => Some v
  | None => default a
  end.

Definition missing (cls : Class) (kw : Kwargs) : list string :=
  name <$> filter (fun a => argument kw a = None) (cls_attrs cls).

(** Binding the call's keywords to the parameters of [__init__]. *)
Definition bind_arguments (cls : Class) (kw : Kwargs)
    : result (list (Attribute * PyVal)) :=
  if decide (dom kw ⊆ list_to_set (attr_names cls)) then
    match missing cls kw with
    | [] => Ok (omap (fun a => pair a <$> argument kw a) (cls_attrs cls))
    | names => Raise (MissingArguments names)
    end
  else Raise UnexpectedKeyword.

(** First part of the generated [__init__]: every attribute is assigned,
    through its converter, in declaration order. *)
Fixpoint assign_all (bound : list (Attribute * PyVal))
    : result (list (Attribute * PyVal)) :=
  match bound with
  | [] => Ok []
  | (a, v) :: rest =>
      v' <- convert a v ;;
      rest' <- assign_all rest ;;
      Ok ((a, v') :: rest')
  end.

(** Second part: the validators of every attribute are run on the value
    assigned, in declaration order. *)
Fixpoint validate_all (year_now : Z) (assigned : list (Attribute * PyVal))
    : result unit :=
  match assigned with
  | [] => Ok tt
  | (a, v) :: rest => validate a year_now v ;;; validate_all year_now rest
  end.

Definition slots (assigned : list (Attribute * PyVal)) : Instance :=
  list_to_map ((fun av => (name av.1, av.2)) <$> assigned).

(** The call of the class with keyword arguments [kw]. *)
Definition init (cls : Class) (year_now : Z) (kw : Kwargs) : result Instance :=
  bound <- bind_arguments cls kw ;;
  assigned <- assign_all bound ;;
  validate_all year_now assigned ;;;
  Ok (slots assigned).

Definition find_attr (cls : Class) (nm : string) : option Attribute :=
  List.find (fun a => String.eqb (name a) nm) (cls_attrs cls).

(** The [on_setattr] hook of [@define]: convert, then validate. *)
Definition on_setattr (a : Attribute) (year_now : Z) (value : PyVal)
    : result PyVal :=
  nval <- convert a value ;;
  validate a year_now nval ;;;
  Ok nval.

(** [inst.nm = value] on an instance of [cls]: the new state of the
    instance and the outcome of the statement.  The class is slotted, so
    a name that is not an attribute cannot be assigned. *)
Definition setattr (cls : Class) (year_now : Z) (inst : Instance)
    (nm : string) (value : PyVal) : Instance * result unit :=
  match find_attr cls nm with
  | None =>
      (inst, Raise (AttributeError ("'" +:+ cls_name cls
                     +:+ "' object has no attribute '" +:+ nm +:+ "'")))
  | Some a =>
      match on_setattr a year_now value with
      | Ok nval => (<[nm := nval]> inst, Ok tt)
      | Raise e => (inst, Raise e)
      end
  end.

(** ** The three entry classes *)

Definition Book : Class := define "Book" [
  field "author" NOTHING no_converter [instance_of T_str; check_name; check_len];
  field "title" NOTHING no_converter [instance_of T_str; check_len];
  field "year" NOTHING int_converter [instance_of T_int; check_year];
  field "publisher" NOTHING no_converter [instance_of T_str; check_len];

  field "address" (Some PNone) no_converter [check_str; check_len];
  field "edition" (Some PNone) no_converter [check_str; check_len];
  field "editor" (Some PNone) no_converter [check_str; check_len];
  field "month" (Some PNone) no_converter [check_str; check_len];
  field "note" (Some PNone) no_converter [check_str; check_len];
  field "number" (Some PNone) no_converter [check_str; check_len];
  field "series" (Some PNone) no_converter [check_str; check_len];
  field "volume" (Some PNone) no_converter [check_str; check_len]
].

Definition Article : Class := define "Article" [
  field "author" NOTHING no_converter [instance_of T_str; check_name; check_len];
  field "journal" NOTHING no_converter [instance_of T_str; check_len];
  field "title" NOTHING no_converter [instance_of T_str; check_len];
  field "year" NOTHING int_converter [instance_of T_int; check_year];

  field "month" (Some PNone) no_converter [check_str; check_len];
  field "note" (Some PNone) no_converter [check_str; check_len];
  field "number" (Some PNone) no_converter [check_str; check_len];
  field "pages" (Some PNone) no_converter [check_str; check_len];
  field "volume" (Some PNone) no_converter [check_str; check_len]
].

Definition Inproceedings : Class := define "Inproceedings" [
  field "author" NOTHING no_converter [instance_of T_str; check_name; check_len];
  field "title" NOTHING no_converter [instance_of T_str; check_len];
  field "year" NOTHING int_converter [instance_of T_int; check_year];
  field "booktitle" NOTHING no_converter [instance_of T_str; check_len];

  field "address" (Some PNone) no_converter [check_str; check_len];
  field "editor" (Some PNone) no_converter [check_str; check_len];
  field "month" (Some PNone) no_converter [check_str; check_len];
  field "note" (Some PNone) no_converter [check_str; check_len];
  field "number" (Some PNone) no_converter [check_str; check_len];
  field "organization" (Some PNone) no_converter [check_str; check_len];
  field "pages" (Some PNone) no_converter [check_str; check_len];
  field "publisher" (Some PNone) no_converter [check_str; check_len];
  field "series" (Some PNone) no_converter [check_str; check_len];
  field "volume" (Some PNone) no_converter [check_str; check_len]
].

(** ** The entry types and their fields, as the specification lists them *)

Inductive EntryType : Type := BookT | ArticleT | InproceedingsT.

Definition class_of (t : EntryType) : Class :=
  match t with
  | BookT => Book
  | ArticleT => Article
  | InproceedingsT => Inproceedings
  end.

(** The four sorts of field: the author, a required string, the year and
    an optional string. *)
Inductive Kind : Type := KAuthor | KString | KYear | KOptional.

(** The declaration of a field of each sort, as the module writes it. *)
Definition declaration (f : string * Kind) : Attribute :=
  match f.2 with
  | KAuthor =>
      field f.1 NOTHING no_converter [instance_of T_str; check_name; check_len]
  | KString => field f.1 NOTHING no_converter [instance_of T_str; check_len]
  | KYear => field f.1 NOTHING int_converter [instance_of T_int; check_year]
  | KOptional => field f.1 (Some PNone) no_converter [check_str; check_len]
  end.

(** The table of required and optional fields of each entry type, as
    section 3 of the specification gives it; [class_of_fields] below
    shows that the three classes declare exactly these fields. *)
Definition fields (t : EntryType) : list (string * Kind) :=
  match t with
  | BookT =>
      [("author", KAuthor); ("title", KString); ("year", KYear);
       ("publisher", KString);
       ("address", KOptional); ("edition", KOptional); ("editor", KOptional);
       ("month", KOptional); ("note", KOptional); ("number", KOptional);
       ("series", KOptional); ("volume", KOptional)]
  | ArticleT =>
      [("author", KAuthor); ("journal", KString); ("title", KString);
       ("year", KYear);
       ("month", KOptional); ("note", KOptional); ("number", KOptional);
       ("pages", KOptional); ("volume", KOptional)]
  | InproceedingsT =>
      [("author", KAuthor); ("title", KString); ("year", KYear);
       ("booktitle", KString);
       ("address", KOptional); ("editor", KOptional); ("month", KOptional);
       ("note", KOptional); ("number", KOptional);
       ("organization", KOptional); ("pages", KOptional);
       ("publisher", KOptional); ("series", KOptional); ("volume", KOptional)]
  end.

Definition field_names (t : EntryType) : list string := (fields t).*1.

(** The name format the code checks: at least two whitespace-separated
    tokens, each accepted by [str.isalpha]. *)
Definition name_format (s : string) : Prop :=
  (2 <= length (PyString.split s))%nat
  ∧ Forall (fun tok => PyString.isalpha tok = true) (PyString.split s).

(** The name format in the words of the specification and of the
    docstring of [check_name]: the tokens are made of the letters
    [A-Za-z] only. *)
Definition ascii_name_format (s : string) : Prop :=
  (2 <= length (PyString.split s))%nat
  ∧ Forall (fun tok => tok ≠ EmptyString
                       ∧ PyString.forallb PyString.isascii_letter tok = true)
           (PyString.split s).

Definition year_in_range (year_now n : Z) : Prop := 500 <= n <= year_now + 5.

(** The per-field validation predicate on the value a field holds. *)
Definition field_valid (year_now : Z) (k : Kind) (v : PyVal) : Prop :=
  match k, v with
  | KAuthor, PStr s => name_format s ∧ PyString.len s <= 5000
  | KString, PStr s => PyString.len s <= 5000
  | KYear, PInt n => year_in_range year_now n
  | KOptional, PNone => True
  | KOptional, PStr s => PyString.len s <= 5000
  | _, _ => False
  end.

(** The value a field of sort [k] holds after a construction that was
    given [o] for it ([None]: not given). *)
Definition stored (k : Kind) (o : option PyVal) : option PyVal :=
  match k, o with
  | KYear, Some v =>
      match Builtins.int v with Ok n => Some (PInt n) | Raise _ => None end
  | KOptional, None => Some PNone
  | _, _ => o
  end.

(** The constraint on what is given for a field: it yields a stored
    value, and that value is valid. *)
Definition input_valid (year_now : Z) (k : Kind) (o : option PyVal) : Prop :=
  match stored k o with
  | Some v => field_valid year_now k v
  | None => False
  end.

(** Every field of the instance holds a valid value. *)
Definition instance_valid (t : EntryType) (year_now : Z) (inst : Instance) : Prop :=
  ∀ f k, (f, k) ∈ fields t →
    ∃ v, inst !! f = Some v ∧ field_valid year_now k v.

(** ** Outcomes of construction, for any attrs class *)

Section Outcome.
Variable cls : Class.
Variable year_now : Z.
Variable kw : Kwargs.

(** What is bound to an attribute and what is assigned to it, once
    binding and conversion are known to succeed. *)
Definition bound_value (a : Attribute) : PyVal :=
  from_option id PNone (argument kw a).

Definition assigned_value (a : Attribute) : PyVal :=
  match convert a (bound_value a) with
  | Ok v => v
  | Raise _ => PNone
  end.

Definition binds : Prop :=
  dom kw ⊆ list_to_set (attr_names cls)
  ∧ Forall (fun a => is_Some (argument kw a)) (cls_attrs cls).

Definition converts (a : Attribute) : Prop :=
  ∃ w, convert a (bound_value a) = Ok w.

Definition validates (a : Attribute) : Prop :=
  validate a year_now (assigned_value a) = Ok tt.

(** The ways construction fails, in the order in which the generated
    [__init__] can meet them. *)
Inductive Failure : PyExc -> Prop :=
| Failure_unexpected :
    ¬ dom kw ⊆ list_to_set (attr_names cls) →
    Failure UnexpectedKeyword
| Failure_missing :
    dom kw ⊆ list_to_set (attr_names cls) →
    missing cls kw ≠ [] →
    Failure (MissingArguments (missing cls kw))
| Failure_convert pre a post e :
    binds →
    cls_attrs cls = pre ++ a :: post →
    Forall converts pre →
    convert a (bound_value a) = Raise e →
    Failure e
| Failure_validate pre a post e :
    binds →
    Forall converts (cls_attrs cls) →
    cls_attrs cls = pre ++ a :: post →
    Forall validates pre →
    validate a year_now (assigned_value a) = Raise e →
    Failure e.

Definition constructed : Instance :=
  slots ((fun a => (a, assigned_value a)) <$> cls_attrs cls).

End Outcome.

(** The constraint of the specification on the value of a field: as
    [field_valid], with the author made of the letters [A-Za-z]. *)
Definition spec_field_valid (year_now : Z) (k : Kind) (v : PyVal) : Prop :=
  match k, v with
  | KAuthor, PStr s => ascii_name_format s ∧ PyString.len s <= 5000
  | _, _ => field_valid year_now k v
  end.

Definition spec_input_valid (year_now : Z) (k : Kind) (o : option PyVal) : Prop :=
  match stored k o with
  | Some v => spec_field_valid year_now k v
  | None => False
  end.

(** Truncation toward zero of the float [(-1)^s * m * 2^e]. *)
Definition truncate_toward_zero (s : bool) (m : positive) (e : Z) : Z :=
  let a := if s then Z.neg m else Z.pos m in
  if 0 <=? e then a * 2 ^ e else a ÷ 2 ^ (- e).

#[global] Instance Kind_eq_dec : EqDecision Kind.
Proof. solve_decision. Defined.

(** The required fields of [t] that [kw] does not give, in declaration
    order. *)
Definition required_missing (t : EntryType) (kw : Kwargs) : list string :=
  (filter (fun fk => fk.2 ≠ KOptional ∧ kw !! fk.1 = None) (fields t)).*1.

(** ** Assignments and deletions after construction *)

(** [del inst.nm] on an instance of [cls]: the slot is emptied.  attrs
    guards deletion on frozen classes only, so on these classes it is the
    deletion of a slot: a slot that is empty, or a name that is not an
    attribute, raises. *)
Definition delattr (cls : Class) (inst : Instance) (nm : string)
    : Instance * result unit :=
  match find_attr cls nm with
  | None =>
      (inst, Raise (AttributeError ("'" +:+ cls_name cls
                     +:+ "' object has no attribute '" +:+ nm +:+ "'")))
  | Some _ =>
      match inst !! nm with
      | Some _ => (delete nm inst, Ok tt)
      | None => (inst, Raise (AttributeError nm))
      end
  end.

(** The statements on an attribute of an instance: [inst.target = value],
    executed when the clock reads [at_year], and [del inst.target]. *)
Inductive Operation : Type :=
| Assign (at_year : Z) (target : string) (value : PyVal)
| Delete (target : string).

Definition step (cls : Class) (inst : Instance) (op : Operation) : Instance :=
  match op with
  | Assign y nm v => (setattr cls y inst nm v).1
  | Delete nm => (delattr cls inst nm).1
  end.

(** The state of the instance after a sequence of statements, those
    that raise included (the caller may catch the error and go on). *)
Fixpoint run (cls : Class) (inst : Instance) (ops : list Operation) : Instance :=
  match ops with
  | [] => inst
  | op :: rest => run cls (step cls inst op) rest
  end.

Definition no_later_than (year_now : Z) (op : Operation) : Prop :=
  match op with
  | Assign y _ _ => y <= year_now
  | Delete _ => True
  end.

Definition is_assignment (op : Operation) : Prop :=
  match op with
  | Assign _ _ _ => True
  | Delete _ => False
  end.

(** Every field the instance holds is a declared field and holds a valid
    value. *)
Definition held_valid (t : EntryType) (year_now : Z) (inst : Instance) : Prop :=
  ∀ f v, inst !! f = Some v → ∃ k, (f, k) ∈ fields t ∧ field_valid year_now k v.

(** The length check of a string field is the first step of the
    construction to fail: the keywords bind, the year converts, a string
    field is given more than 5000 characters (with the name format if it
    is the author) and every field declared before it is given a valid
    input. *)
Definition length_check_first (t : EntryType) (year_now : Z) (kw : Kwargs) : Prop :=
  dom kw ⊆ list_to_set (field_names t)
  ∧ required_missing t kw = []
  ∧ (∃ v n, kw !! "year" = Some v ∧ Builtins.int v = Ok n)
  ∧ ∃ pre f k s post,
      fields t = pre ++ (f, k) :: post
      ∧ k ≠ KYear
      ∧ kw !! f = Some (PStr s)
      ∧ 5000 < PyString.len s
      ∧ (k = KAuthor → name_format s)
      ∧ Forall (fun fk => input_valid year_now fk.2 (kw !! fk.1)) pre.

(** ** The error conditions of the specification *)

Inductive Condition : Type :=
| InvalidType
| InvalidName
| InvalidYear
| FieldTooLong
| MissingRequiredField
| UnexpectedField.

Definition is_message (e : PyExc) (msg : string) : bool :=
  match e with
  | ValueError m => String.eqb m msg
  | _ => false
  end.

(** The condition an exception reports, read off its class and message. *)
Definition condition_of (e : PyExc) : option Condition :=
  match e with
  | NotInstance _ _ _ | InvalidLiteral _ | DigitLimit _ | TypeError _
  | OverflowError _ =>
      Some InvalidType
  | MissingArguments _ => Some MissingRequiredField
  | UnexpectedKeyword => Some UnexpectedField
  | AttributeError _ => None
  | ValueError msg =>
      if is_message name_required_error msg || is_message name_alphabet_error msg
      then Some InvalidName
      else if is_message too_long_error msg then Some FieldTooLong
      else if is_message not_a_string_error msg
              || String.eqb msg "cannot convert float NaN to integer"
      then Some InvalidType
      else if PyString.startswith msg "Given year is not in range [500, "
      then Some InvalidYear
      else None
  end.

(** A value of the wrong type for a field of sort [k]. *)
Definition ill_typed (k : Kind) (v : PyVal) : Prop :=
  match k with
  | KYear => ∃ e, Builtins.int v = Raise e
  | KOptional => v ≠ PNone ∧ isinstance v T_str = false
  | KAuthor | KString => isinstance v T_str = false
  end.

(** The input [kw] of a construction of [t] meets the condition. *)
Definition violates (t : EntryType) (year_now : Z) (kw : Kwargs) (c : Condition) : Prop :=
  match c with
  | InvalidType =>
      ∃ f k v, (f, k) ∈ fields t ∧ kw !! f = Some v ∧ ill_typed k v
  | InvalidName =>
      ∃ f s, (f, KAuthor) ∈ fields t ∧ kw !! f = Some (PStr s) ∧ ¬ name_format s
  | InvalidYear =>
      ∃ f v n, (f, KYear) ∈ fields t ∧ kw !! f = Some v
               ∧ Builtins.int v = Ok n ∧ ¬ year_in_range year_now n
  | FieldTooLong =>
      ∃ f k s, (f, k) ∈ fields t ∧ k ≠ KYear ∧ kw !! f = Some (PStr s)
               ∧ 5000 < PyString.len s
  | MissingRequiredField =>
      ∃ f k, (f, k) ∈ fields t ∧ k ≠ KOptional ∧ kw !! f = None
  | UnexpectedField =>
      ∃ f, is_Some (kw !! f) ∧ f ∉ field_names t
  end.

(** [f] is the one field of [kw] whose input is not valid. *)
Definition only_invalid (t : EntryType) (year_now : Z) (kw : Kwargs) (f : string) : Prop :=
  dom kw ⊆ list_to_set (field_names t)
  ∧ f ∈ field_names t
  ∧ Forall (fun fk => fk.1 = f ↔ ¬ input_valid year_now fk.2 (kw !! fk.1))
           (fields t).

(** All the fields but [f] are given valid inputs. *)
Definition others_valid (t : EntryType) (year_now : Z) (kw : Kwargs) (f : string) : Prop :=
  dom kw ⊆ list_to_set (field_names t)
  ∧ Forall (fun fk => fk.1 ≠ f → input_valid year_now fk.2 (kw !! fk.1))
           (fields t).

Definition all_valid (t : EntryType) (year_now : Z) (kw : Kwargs) : Prop :=
  dom kw ⊆ list_to_set (field_names t)
  ∧ Forall (fun fk => input_valid year_now fk.2 (kw !! fk.1)) (fields t).

Definition spec_all_valid (t : EntryType) (year_now : Z) (kw : Kwargs) : Prop :=
  dom kw ⊆ list_to_set (field_names t)
  ∧ Forall (fun fk => spec_input_valid year_now fk.2 (kw !! fk.1)) (fields t).

(** ** Decision procedures for the predicates *)

#[global] Instance name_format_dec (s : string) : Decision (name_format s).
Proof. unfold name_format. apply _. Defined.

#[global] Instance ascii_name_format_dec (s : string) : Decision (ascii_name_format s).
Proof. unfold ascii_name_format. apply _. Defined.

#[global] Instance year_in_range_dec (year_now n : Z) : Decision (year_in_range year_now n).
Proof. unfold year_in_range. apply _. Defined.

#[global] Instance field_valid_dec (year_now : Z) (k : Kind) (v : PyVal) :
  Decision (field_valid year_now k v).
Proof. destruct k, v; simpl; apply _. Defined.

#[global] Instance spec_field_valid_dec (year_now : Z) (k : Kind) (v : PyVal) :
  Decision (spec_field_valid year_now k v).
Proof. destruct k, v; simpl; apply _. Defined.

#[global] Instance input_valid_dec (year_now : Z) (k : Kind) (o : option PyVal) :
  Decision (input_valid year_now k o).
Proof. unfold input_valid. destruct (stored k o); apply _. Defined.

#[global] Instance spec_input_valid_dec (year_now : Z) (k : Kind) (o : option PyVal) :
  Decision (spec_input_valid year_now k o).
Proof. unfold spec_input_valid. destruct (stored k o); apply _. Defined.

#[global] Instance only_invalid_dec (t : EntryType) (year_now : Z) (kw : Kwargs) (f : string) :
  Decision (only_invalid t year_now kw f).
Proof. unfold only_invalid. apply _. Defined.

#[global] Instance others_valid_dec (t : EntryType) (year_now : Z) (kw : Kwargs) (f : string) :
  Decision (others_valid t year_now kw f).
Proof. unfold others_valid. apply _. Defined.

#[global] Instance all_valid_dec (t : EntryType) (year_now : Z) (kw : Kwargs) :
  Decision (all_valid t year_now kw).
Proof. unfold all_valid. apply _. Defined.

#[global] Instance spec_all_valid_dec (t : EntryType) (year_now : Z) (kw : Kwargs) :
  Decision (spec_all_valid t year_now kw).
Proof. unfold spec_all_valid. apply _. Defined.

(** ** Sample inputs *)

(** The entry of the docstring of [Book]. *)
Definition clean_code : Kwargs :=
  <["author" := PStr "Robert Martin"]>
  (<["title" := PStr "Clean Code"]>
  (<["year" := PInt 2008]>
  (<["publisher" := PStr "Prentice Hall"]> ∅))).

(** The entry of the docstring of [Article]. *)
Definition apprenticeship : Kwargs :=
  <["author" := PStr "Allan Collins and John Seely Brown and Ann Holum"]>
  (<["title" := PStr "Cognitive apprenticeship: making thinking visible"]>
  (<["journal" := PStr "American Educator"]>
  (<["year" := PInt 1991]>
  (<["volume" := PStr "6"]>
  (<["pages" := PStr "38--46"]> ∅))))).

(** "Jose Perez" with both e's accented (U+00E9). *)
Definition accented_name : string :=
  "Jos" +:+ String (ascii_of_N 233) " P" +:+ String (ascii_of_N 233) "rez".

(** 5001 letters and no blank. *)
Definition long_token : string := PyString.replicate (Z.to_nat 5001) "a".

(** 2008.9 as a binary64 float: 4417617818078413 * 2^-41. *)
Definition float_2008_9 : spec_float := S754_finite false 4417617818078413 (-41).

(** ** Further predicates on names and inputs *)

(** A character that may occur in an accepted author: a letter of
    [str.isalpha] or a whitespace of [str.split]. *)
Definition letter_or_space (c : ascii) : bool :=
  PyString.isalpha_char c || PyString.isspace_char c.

Definition not_space (c : ascii) : bool := negb (PyString.isspace_char c).

(** The outcome of a construction that corresponds to the outcome of an
    assignment. *)
Definition as_construction (r : Instance * result unit) : result Instance :=
  match r.2 with
  | Ok _ => Ok r.1
  | Raise e => Raise e
  end.

(** The errors the module itself raises. *)
Definition module_errors (year_now : Z) : list PyExc :=
  [name_required_error; name_alphabet_error; too_long_error;
   not_a_string_error; year_range_error year_now].

(** * Properties *)

(** ** The result monad *)

Lemma rbind_Ok {A B : Type} (r : result A) (k : A -> result B) (b : B) :
  rbind r k = Ok b ↔ ∃ a, r = Ok a ∧ k a = Ok b.
Proof.
  destruct r as [a|e]; simpl; split.
  - intros H. by exists a.
  - by intros (a' & [= <-] & H).
  - discriminate.
  - by intros (a' & [=] & _).
Qed.

Lemma rbind_Raise {A B : Type} (r : result A) (k : A -> result B) (e : PyExc) :
  rbind r k = Raise e ↔ r = Raise e ∨ ∃ a, r = Ok a ∧ k a = Raise e.
Proof.
  destruct r as [a|e']; simpl; split.
  - intros H. right. by exists a.
  - by intros [[=] | (a' & [= <-] & H)].
  - intros [= <-]. by left.
  - by intros [[= <-] | (a' & [=] & _)].
Qed.

(** ** Construction, for any attrs class *)

Section Construction.
Variable cls : Class.
Variable year_now : Z.
Variable kw : Kwargs.

Local Abbreviation bound_value := (bound_value kw).
Local Abbreviation assigned_value := (assigned_value kw).
Local Abbreviation binds := (binds cls kw).
Local Abbreviation converts := (converts kw).
Local Abbreviation validates := (validates year_now kw).
Local Abbreviation Failure := (Failure cls year_now kw).
Local Abbreviation constructed := (constructed cls kw).

Lemma missing_nil :
  missing cls kw = [] ↔ Forall (fun a => is_Some (argument kw a)) (cls_attrs cls).
Proof.
  unfold missing. induction (cls_attrs cls) as [|a l IH]; [by split|].
  rewrite filter_cons, Forall_cons. destruct (decide _) as [Hn|Hn].
  - split; [discriminate|]. intros [[v Hv] _]. congruence.
  - rewrite IH. split; [|tauto]. intros H. split; [|done].
    by destruct (argument kw a); [eexists|].
Qed.

Lemma omap_bound (l : list Attribute) :
  Forall (fun a => is_Some (argument kw a)) l →
  omap (fun a => pair a <$> argument kw a) l
  = (fun a => (a, bound_value a)) <$> l.
Proof.
  induction 1 as [|a l [v Hv] _ IH]; [done|].
  rewrite fmap_cons, <- IH. cbn [omap list_omap]. unfold bound_value.
  by rewrite Hv.
Qed.

Lemma bind_arguments_Ok :
  binds →
  bind_arguments cls kw = Ok ((fun a => (a, bound_value a)) <$> cls_attrs cls).
Proof.
  intros [Hdom Hall]. unfold bind_arguments.
  rewrite decide_True by done.
  rewrite (proj2 missing_nil Hall). by rewrite omap_bound.
Qed.

Lemma first_failure {X : Type} (g : Attribute -> result X) (l : list Attribute) :
  Forall (fun a => ∃ x, g a = Ok x) l
  ∨ ∃ pre a post e,
      l = pre ++ a :: post ∧ Forall (fun a => ∃ x, g a = Ok x) pre
      ∧ g a = Raise e.
Proof.
  induction l as [|a l IH]; [by left|].
  destruct (g a) as [x|e] eqn:Ha.
  - destruct IH as [IH | (pre & b & post & e & -> & Hpre & Hb)].
    + left. constructor; eauto.
    + right. exists (a :: pre), b, post, e. repeat split; [|done].
      constructor; eauto.
  - right. by exists [], a, l, e.
Qed.

Lemma assign_all_Ok (l : list Attribute) :
  Forall converts l →
  assign_all ((fun a => (a, bound_value a)) <$> l)
  = Ok ((fun a => (a, assigned_value a)) <$> l).
Proof.
  induction 1 as [|a l [w Hw] _ IH]; [done|].
  rewrite !fmap_cons. cbn [assign_all]. unfold assigned_value at 1.
  rewrite Hw, IH. done.
Qed.

Lemma assign_all_Raise (pre : list Attribute) a post e :
  Forall converts pre →
  convert a (bound_value a) = Raise e →
  assign_all ((fun a => (a, bound_value a)) <$> pre ++ a :: post) = Raise e.
Proof.
  induction 1 as [|b l [w Hw] _ IH]; intros Ha.
  - simpl. by rewrite Ha.
  - rewrite <- app_comm_cons, fmap_cons. cbn [assign_all].
    rewrite Hw, (IH Ha). done.
Qed.

Lemma validate_all_Ok (l : list Attribute) :
  Forall validates l →
  validate_all year_now ((fun a => (a, assigned_value a)) <$> l) = Ok tt.
Proof.
  induction 1 as [|a l Ha _ IH]; [done|].
  rewrite fmap_cons. cbn [validate_all]. unfold validates in Ha.
  rewrite Ha, IH. done.
Qed.

Lemma validate_all_Raise (pre : list Attribute) a post e :
  Forall validates pre →
  validate a year_now (assigned_value a) = Raise e →
  validate_all year_now ((fun a => (a, assigned_value a)) <$> pre ++ a :: post)
  = Raise e.
Proof.
  induction 1 as [|b l Hb _ IH]; intros Ha.
  - simpl. by rewrite Ha.
  - rewrite <- app_comm_cons, fmap_cons. cbn [validate_all].
    unfold validates in Hb. rewrite Hb, (IH Ha). done.
Qed.

Lemma init_Ok_intro :
  binds → Forall converts (cls_attrs cls) → Forall validates (cls_attrs cls) →
  init cls year_now kw = Ok constructed.
Proof.
  intros Hb Hc Hv. unfold init.
  rewrite (bind_arguments_Ok Hb). simpl.
  rewrite (assign_all_Ok _ Hc). simpl.
  by rewrite (validate_all_Ok _ Hv).
Qed.

Lemma init_Raise_intro e : Failure e → init cls year_now kw = Raise e.
Proof.
  unfold init. destruct 1 as [Hd|Hd Hm|pre a post e Hb Hl Hpre Ha
                              |pre a post e Hb Hc Hl Hpre Ha].
  - unfold bind_arguments. by rewrite decide_False.
  - unfold bind_arguments. rewrite decide_True by done.
    by destruct (missing cls kw).
  - rewrite (bind_arguments_Ok Hb). simpl.
    rewrite Hl. by rewrite (assign_all_Raise _ _ _ _ Hpre Ha).
  - rewrite (bind_arguments_Ok Hb). simpl.
    rewrite (assign_all_Ok _ Hc). simpl.
    rewrite Hl. by rewrite (validate_all_Raise _ _ _ _ Hpre Ha).
Qed.

Lemma init_cases :
  (binds ∧ Forall converts (cls_attrs cls) ∧ Forall validates (cls_attrs cls))
  ∨ ∃ e, Failure e.
Proof.
  destruct (decide (dom kw ⊆ list_to_set (attr_names cls))) as [Hd|Hd];
    [|right; eexists; by constructor].
  destruct (decide (missing cls kw = [])) as [Hm|Hm];
    [|right; eexists; by constructor].
  assert (binds) as Hb by (split; [done|by apply missing_nil]).
  destruct (first_failure (fun a => convert a (bound_value a)) (cls_attrs cls))
    as [Hc | (pre & a & post & e & Hl & Hpre & Ha)];
    [|right; exists e; by eapply Failure_convert].
  destruct (first_failure (fun a => validate a year_now (assigned_value a))
              (cls_attrs cls))
    as [Hv | (pre & a & post & e & Hl & Hpre & Ha)].
  - left. split; [done|]. split; [done|].
    eapply Forall_impl; [exact Hv|]. by intros a [[] Ha].
  - right. exists e. eapply Failure_validate; try done.
    eapply Forall_impl; [exact Hpre|]. by intros b [[] Hb'].
Qed.

Lemma init_Ok_inv inst :
  init cls year_now kw = Ok inst →
  binds ∧ Forall converts (cls_attrs cls) ∧ Forall validates (cls_attrs cls)
  ∧ inst = constructed.
Proof.
  intros Hi. destruct init_cases as [(Hb & Hc & Hv) | [e He]].
  - rewrite (init_Ok_intro Hb Hc Hv) in Hi. by injection Hi as <-.
  - rewrite (init_Raise_intro _ He) in Hi. discriminate.
Qed.

Lemma init_Raise_inv e : init cls year_now kw = Raise e → Failure e.
Proof.
  intros Hi. destruct init_cases as [(Hb & Hc & Hv) | [e' He]].
  - rewrite (init_Ok_intro Hb Hc Hv) in Hi. discriminate.
  - rewrite (init_Raise_intro _ He) in Hi. by injection Hi as <-.
Qed.

Lemma constructed_lookup a :
  NoDup (attr_names cls) → a ∈ cls_attrs cls →
  constructed !! name a = Some (assigned_value a).
Proof.
  intros Hnd Ha. unfold constructed, slots.
  apply elem_of_list_to_map_1.
  - rewrite <- list_fmap_compose. rewrite <- list_fmap_compose. exact Hnd.
  - rewrite <- list_fmap_compose. apply list_elem_of_fmap. by exists a.
Qed.

Lemma constructed_dom : dom constructed = list_to_set (attr_names cls).
Proof.
  unfold constructed, slots. rewrite dom_list_to_map_L.
  by rewrite <- !list_fmap_compose.
Qed.

End Construction.

(** ** The validators, on the values they are given *)

Lemma check_tokens_Ok (l : list string) :
  check_tokens l = Ok tt ↔ Forall (fun tok => PyString.isalpha tok = true) l.
Proof.
  induction l as [|tok l IH]; simpl; [by split|].
  rewrite Forall_cons. destruct (PyString.isalpha tok); [|by split; [|intros []]].
  rewrite IH. tauto.
Qed.

Lemma check_tokens_Raise (l : list string) (e : PyExc) :
  check_tokens l = Raise e → e = name_alphabet_error.
Proof.
  induction l as [|tok l IH]; simpl; [discriminate|].
  destruct (PyString.isalpha tok); [done|]. by intros [= <-].
Qed.

Lemma check_name_Ok (year_now : Z) (attribute s : string) :
  check_name year_now attribute (PStr s) = Ok tt ↔ name_format s.
Proof.
  unfold check_name, name_format.
  destruct (Z.ltb_spec (Z.of_nat (length (PyString.split s))) 2) as [Hlt|Hge].
  - split; [discriminate|]. intros [Hlen _]. lia.
  - rewrite check_tokens_Ok. split; [|tauto]. intros H. split; [lia|done].
Qed.

Lemma check_len_Ok (year_now : Z) (attribute s : string) :
  check_len year_now attribute (PStr s) = Ok tt ↔ PyString.len s <= 5000.
Proof.
  unfold check_len.
  destruct (Z.ltb_spec 5000 (PyString.len s)); split; (done || lia).
Qed.

Lemma check_len_Raise (year_now : Z) (attribute s : string) (e : PyExc) :
  check_len year_now attribute (PStr s) = Raise e →
  e = too_long_error ∧ 5000 < PyString.len s.
Proof.
  unfold check_len.
  destruct (Z.ltb_spec 5000 (PyString.len s)); [|discriminate].
  by intros [= <-].
Qed.

Lemma check_year_Ok (year_now : Z) (attribute : string) (n : Z) :
  check_year year_now attribute (PInt n) = Ok tt ↔ year_in_range year_now n.
Proof.
  unfold check_year, year_in_range. simpl.
  destruct (Z.ltb_spec (year_now + 5) n); simpl; [split; [discriminate|lia]|].
  destruct (Z.ltb_spec n 500); split; (done || lia).
Qed.

Lemma check_year_Raise (year_now : Z) (attribute : string) (n : Z) (e : PyExc) :
  check_year year_now attribute (PInt n) = Raise e →
  e = year_range_error year_now ∧ ¬ year_in_range year_now n.
Proof.
  unfold check_year, year_in_range. simpl.
  destruct (Z.ltb_spec (year_now + 5) n); simpl; [intros [= <-]; split; [done|lia]|].
  destruct (Z.ltb_spec n 500); [|discriminate].
  intros [= <-]. split; [done|lia].
Qed.

(** ** The declared fields of the three classes *)

Lemma class_of_fields (t : EntryType) :
  cls_attrs (class_of t) = declaration <$> fields t.
Proof. by destruct t. Qed.

Lemma declaration_name (f : string) (k : Kind) : name (declaration (f, k)) = f.
Proof. by destruct k. Qed.

Lemma class_of_names (t : EntryType) : attr_names (class_of t) = field_names t.
Proof.
  unfold attr_names, field_names. rewrite class_of_fields, <- list_fmap_compose.
  apply list_fmap_ext. intros _ [f k] _. apply declaration_name.
Qed.

Lemma fields_NoDup (t : EntryType) : NoDup (field_names t).
Proof. destruct t; apply (bool_decide_unpack _); by vm_compute. Qed.

Lemma fields_functional (t : EntryType) (f : string) (k k' : Kind) :
  (f, k) ∈ fields t → (f, k') ∈ fields t → k = k'.
Proof.
  intros H H'. pose proof (fields_NoDup t) as Hnd.
  apply (elem_of_list_to_map_1 (M := gmap string) _ _ _ Hnd) in H, H'. congruence.
Qed.

Lemma declared_attr (t : EntryType) (f : string) (k : Kind) :
  (f, k) ∈ fields t → declaration (f, k) ∈ cls_attrs (class_of t).
Proof. rewrite class_of_fields. apply list_elem_of_fmap_2. Qed.

Lemma attr_declared (t : EntryType) (a : Attribute) :
  a ∈ cls_attrs (class_of t) → ∃ f k, (f, k) ∈ fields t ∧ a = declaration (f, k).
Proof.
  rewrite class_of_fields. intros ([f k] & -> & H)%list_elem_of_fmap_1. eauto.
Qed.

Lemma validate_field (year_now : Z) (f : string) (k : Kind) (v : PyVal) :
  validate (declaration (f, k)) year_now v = Ok tt ↔ field_valid year_now k v.
Proof.
  destruct k, v as [| | | |s]; try (by split);
    unfold validate, declaration, field_valid; cbn [validator name run_validators
      instance_of isinstance check_str rbind snd fst].
  - (* author *)
    rewrite rbind_Ok. split.
    + intros ([] & Hn%check_name_Ok & Hl%rbind_Ok).
      destruct Hl as ([] & Hl%check_len_Ok & _). done.
    + intros [Hn Hl]. exists tt. split; [by apply check_name_Ok|].
      apply rbind_Ok. exists tt. split; [by apply check_len_Ok|done].
  - (* required string *)
    rewrite rbind_Ok. split.
    + by intros ([] & Hl%check_len_Ok & _).
    + intros Hl. exists tt. split; [by apply check_len_Ok|done].
  - (* year given a bool *)
    unfold check_year. simpl.
    destruct (_ <? Z.b2z b); simpl; [by split|]. by destruct b.
  - (* year *)
    rewrite rbind_Ok. split.
    + by intros ([] & Hy%check_year_Ok & _).
    + intros Hy. exists tt. split; [by apply check_year_Ok|done].
  - (* optional string *)
    rewrite rbind_Ok. split.
    + by intros ([] & Hl%check_len_Ok & _).
    + intros Hl. exists tt. split; [by apply check_len_Ok|done].
Qed.

(** ** Construction of the three entry types *)

Lemma field_stored (kw : Kwargs) (f : string) (k : Kind) :
  is_Some (argument kw (declaration (f, k))) →
  converts kw (declaration (f, k)) →
  stored k (kw !! f) = Some (assigned_value kw (declaration (f, k))).
Proof.
  unfold converts, assigned_value, bound_value, argument, stored, convert.
  destruct k; simpl; destruct (kw !! f) as [v|]; simpl;
    try done; try (by intros [? [=]]).
  intros _ [w Hw]. destruct (Builtins.int v); [done|discriminate].
Qed.

Lemma field_accepted (year_now : Z) (kw : Kwargs) (f : string) (k : Kind) :
  is_Some (argument kw (declaration (f, k)))
  ∧ converts kw (declaration (f, k))
  ∧ validates year_now kw (declaration (f, k))
  ↔ input_valid year_now k (kw !! f).
Proof.
  unfold validates. rewrite validate_field. unfold input_valid. split.
  - intros (Hb & Hc & Hv). by rewrite (field_stored _ _ _ Hb Hc).
  - unfold converts, assigned_value, bound_value, argument, stored, convert.
    destruct k; simpl; destruct (kw !! f) as [v|]; simpl; try done;
      try (by intros H; repeat split; eauto).
    destruct (Builtins.int v) as [n|e]; simpl; [|done].
    intros H. split; [eauto|]. split; [eauto|exact H].
Qed.

Lemma entry_binds_converts_validates (t : EntryType) (year_now : Z) (kw : Kwargs) :
  binds (class_of t) kw
  ∧ Forall (converts kw) (cls_attrs (class_of t))
  ∧ Forall (validates year_now kw) (cls_attrs (class_of t))
  ↔ dom kw ⊆ list_to_set (field_names t)
    ∧ ∀ f k, (f, k) ∈ fields t → input_valid year_now k (kw !! f).
Proof.
  unfold binds. rewrite class_of_names, !Forall_forall. split.
  - intros ([Hd Hb] & Hc & Hv). split; [done|]. intros f k Hf.
    apply field_accepted. pose proof (declared_attr _ _ _ Hf). auto.
  - intros [Hd Hin]. repeat split; [done|..];
      intros a (f & k & Hf & ->)%attr_declared;
      apply (field_accepted year_now kw f k); auto.
Qed.

Lemma constructed_field (t : EntryType) (year_now : Z) (kw : Kwargs) (f : string) (k : Kind) :
  (f, k) ∈ fields t → input_valid year_now k (kw !! f) →
  constructed (class_of t) kw !! f = stored k (kw !! f).
Proof.
  intros Hf (Hb & Hc & _)%field_accepted.
  rewrite (field_stored _ _ _ Hb Hc).
  rewrite <- (declaration_name f k) at 1.
  apply constructed_lookup.
  - rewrite class_of_names. apply fields_NoDup.
  - by apply declared_attr.
Qed.

(** Construction succeeds exactly on the inputs that name only declared
    fields and give a valid input for each; the instance then has exactly
    the declared fields, each holding its stored value. *)
Theorem init_entry_Ok (t : EntryType) (year_now : Z) (kw : Kwargs) (inst : Instance) :
  init (class_of t) year_now kw = Ok inst
  ↔ dom kw ⊆ list_to_set (field_names t)
    ∧ (∀ f k, (f, k) ∈ fields t → input_valid year_now k (kw !! f))
    ∧ dom inst = list_to_set (field_names t)
    ∧ (∀ f k, (f, k) ∈ fields t → inst !! f = stored k (kw !! f)).
Proof.
  split.
  - intros (Hb & Hc & Hv & ->)%init_Ok_inv.
    destruct (proj1 (entry_binds_converts_validates t year_now kw))
      as [Hd Hin]; [done|].
    repeat split; [done|done|..].
    + by rewrite constructed_dom, class_of_names.
    + intros f k Hf. eapply constructed_field; eauto.
  - intros (Hd & Hin & Hdi & Hst).
    destruct (proj2 (entry_binds_converts_validates t year_now kw))
      as (Hb & Hc & Hv); [done|].
    rewrite (init_Ok_intro _ _ _ Hb Hc Hv). f_equal.
    apply map_eq. intros i.
    destruct (decide (i ∈ field_names t)) as [Hi|Hi].
    + apply list_elem_of_fmap_1 in Hi as ([f k] & -> & Hf). simpl.
      rewrite (Hst _ _ Hf). eapply constructed_field; eauto.
    + transitivity (@None PyVal); [|symmetry]; apply not_elem_of_dom.
      * rewrite constructed_dom, class_of_names. by rewrite elem_of_list_to_set.
      * rewrite Hdi. by rewrite elem_of_list_to_set.
Qed.

Lemma init_entry_succeeds (t : EntryType) (year_now : Z) (kw : Kwargs) :
  dom kw ⊆ list_to_set (field_names t) →
  (∀ f k, (f, k) ∈ fields t → input_valid year_now k (kw !! f)) →
  init (class_of t) year_now kw = Ok (constructed (class_of t) kw).
Proof.
  intros Hd Hin.
  destruct (proj2 (entry_binds_converts_validates t year_now kw))
    as (Hb & Hc & Hv); [done|].
  by apply init_Ok_intro.
Qed.

(** ** The predicates on whole inputs *)

Lemma letter_isalpha (c : ascii) :
  PyString.isascii_letter c = true → PyString.isalpha_char c = true.
Proof.
  unfold PyString.isascii_letter, PyString.isalpha_char.
  intros ->. done.
Qed.

Lemma letters_isalpha (tok : string) :
  tok ≠ EmptyString → PyString.forallb PyString.isascii_letter tok = true →
  PyString.isalpha tok = true.
Proof.
  destruct tok as [|c tok]; [done|]. intros _. unfold PyString.isalpha.
  generalize (String c tok). clear. intros s.
  induction s as [|c s IH]; simpl; [done|].
  intros [Hc Hs]%andb_prop. by rewrite (letter_isalpha _ Hc), IH.
Qed.

Lemma ascii_name_format_accepted (s : string) :
  ascii_name_format s → name_format s.
Proof.
  intros [Hlen Htok]. split; [done|].
  eapply Forall_impl; [exact Htok|]. intros tok [Hne Hl]. by apply letters_isalpha.
Qed.

Lemma spec_input_valid_accepted (year_now : Z) (k : Kind) (o : option PyVal) :
  spec_input_valid year_now k o → input_valid year_now k o.
Proof.
  unfold spec_input_valid, input_valid. destruct (stored k o) as [v|]; [|done].
  destruct k, v; simpl; try done.
  intros [H ?]. split; [by apply ascii_name_format_accepted|done].
Qed.

Lemma all_valid_fields (t : EntryType) (year_now : Z) (kw : Kwargs) :
  all_valid t year_now kw
  ↔ dom kw ⊆ list_to_set (field_names t)
    ∧ ∀ f k, (f, k) ∈ fields t → input_valid year_now k (kw !! f).
Proof.
  unfold all_valid. rewrite Forall_forall. split; intros [Hd H]; (split; [done|]).
  - intros f k Hf. apply (H _ Hf).
  - intros [f k] Hf. by apply H.
Qed.

Lemma spec_all_valid_accepted (t : EntryType) (year_now : Z) (kw : Kwargs) :
  spec_all_valid t year_now kw → all_valid t year_now kw.
Proof.
  intros [Hd H]. split; [done|]. eapply Forall_impl; [exact H|].
  intros [f k]. apply spec_input_valid_accepted.
Qed.

Lemma init_all_valid (t : EntryType) (year_now : Z) (kw : Kwargs) :
  all_valid t year_now kw ↔ ∃ inst, init (class_of t) year_now kw = Ok inst.
Proof.
  rewrite all_valid_fields. split.
  - intros [Hd H]. eexists. by apply init_entry_succeeds.
  - intros [inst (Hd & H & _)%init_entry_Ok]. done.
Qed.

Lemma field_valid_mono (year_now year_now' : Z) (k : Kind) (v : PyVal) :
  year_now <= year_now' → field_valid year_now k v → field_valid year_now' k v.
Proof.
  intros Hle. destruct k, v; simpl; try done. unfold year_in_range. lia.
Qed.

Lemma stored_valid_again (year_now : Z) (k : Kind) (v : PyVal) :
  field_valid year_now k v → stored k (Some v) = Some v.
Proof. by destruct k, v. Qed.

(** ** Valid inputs, and construction from an instance *)

(** C4. For every input that satisfies the constraints of the
    specification on every field of the entry type, construction succeeds;
    the instance has exactly the declared fields; every field holds the
    value given for it, the year holds the given value coerced to an
    integer, and an optional field that was not given holds [None]. *)
Theorem valid_input_constructed (t : EntryType) (year_now : Z) (kw : Kwargs) :
  spec_all_valid t year_now kw →
  ∃ inst, init (class_of t) year_now kw = Ok inst
    ∧ dom inst = list_to_set (field_names t)
    ∧ ∀ f k, (f, k) ∈ fields t →
        match k, kw !! f with
        | KYear, Some v => ∃ n, Builtins.int v = Ok n ∧ inst !! f = Some (PInt n)
        | KOptional, None => inst !! f = Some PNone
        | _, given => inst !! f = given
        end.
Proof.
  intros Hv%spec_all_valid_accepted.
  pose proof Hv as [inst Hi]%init_all_valid. exists inst. split; [done|].
  apply init_entry_Ok in Hi as (_ & Hin & Hd & Hst). split; [done|].
  intros f k Hf. specialize (Hin _ _ Hf). rewrite (Hst _ _ Hf).
  unfold input_valid, stored in *.
  destruct k, (kw !! f) as [v|]; try done.
  destruct (Builtins.int v) as [n|]; [|done]. by exists n.
Qed.

Lemma valid_input_constructed_witness :
  ∃ inst, init Book 2026 clean_code = Ok inst
    ∧ dom inst = list_to_set (field_names BookT)
    ∧ ∀ f k, (f, k) ∈ fields BookT →
        match k, clean_code !! f with
        | KYear, Some v => ∃ n, Builtins.int v = Ok n ∧ inst !! f = Some (PInt n)
        | KOptional, None => inst !! f = Some PNone
        | _, given => inst !! f = given
        end.
Proof.
  apply (valid_input_constructed BookT 2026 clean_code).
  apply (bool_decide_unpack _). vm_compute. exact I.
Defined.

(** C8. Construction depends on its inputs and on the year the clock
    reads only (it is a function of them); constructing again from the
    fields of a constructed instance succeeds and gives an equal
    instance, in the same year and in any later one. *)
Theorem reconstruction_succeeds (t : EntryType) (year_now year_now' : Z)
    (kw : Kwargs) (inst : Instance) :
  init (class_of t) year_now kw = Ok inst →
  year_now <= year_now' →
  init (class_of t) year_now' inst = Ok inst.
Proof.
  intros (Hd & Hin & Hdi & Hst)%init_entry_Ok Hle.
  assert (∀ f k, (f, k) ∈ fields t →
            ∃ v, inst !! f = Some v ∧ field_valid year_now k v) as Hv.
  { intros f k Hf. specialize (Hin _ _ Hf). rewrite (Hst _ _ Hf).
    unfold input_valid in Hin. destruct (stored k (kw !! f)) as [v|]; [|done].
    by exists v. }
  apply init_entry_Ok. split; [by rewrite Hdi|]. split; [|split; [done|]].
  - intros f k Hf. destruct (Hv _ _ Hf) as (v & -> & Hfv).
    unfold input_valid. rewrite (stored_valid_again _ _ _ Hfv).
    by eapply field_valid_mono.
  - intros f k Hf. destruct (Hv _ _ Hf) as (v & -> & Hfv).
    by rewrite (stored_valid_again _ _ _ Hfv).
Qed.

Lemma reconstruction_succeeds_witness :
  init Book 2026 (constructed Book clean_code) = Ok (constructed Book clean_code).
Proof.
  apply (reconstruction_succeeds BookT 2026 2026 clean_code).
  - vm_compute. reflexivity.
  - lia.
Defined.

(** ** One field varied, the others valid *)

Lemma year_field (t : EntryType) : ("year", KYear) ∈ fields t.
Proof. destruct t; apply (bool_decide_unpack _); by vm_compute. Qed.

Lemma field_name_declared (t : EntryType) (f : string) (k : Kind) :
  (f, k) ∈ fields t → f ∈ field_names t.
Proof. intros Hf. apply list_elem_of_fmap. by exists (f, k). Qed.

Lemma others_valid_insert (t : EntryType) (year_now : Z) (kw : Kwargs)
    (f : string) (k : Kind) (v : PyVal) :
  others_valid t year_now kw f → (f, k) ∈ fields t →
  all_valid t year_now (<[f := v]> kw) ↔ input_valid year_now k (Some v).
Proof.
  intros [Hd Ho] Hf. rewrite Forall_forall in Ho.
  rewrite all_valid_fields. split.
  - intros [_ H]. specialize (H _ _ Hf). by rewrite lookup_insert_eq in H.
  - intros Hv. split.
    + rewrite dom_insert_L. apply union_subseteq. split; [|done].
      apply singleton_subseteq_l, elem_of_list_to_set.
      by eapply field_name_declared.
    + intros f' k' Hf'. destruct (decide (f' = f)) as [->|Hne].
      * rewrite lookup_insert_eq. by rewrite (fields_functional _ _ _ _ Hf' Hf).
      * rewrite lookup_insert_ne by done. by apply (Ho _ Hf').
Qed.

(** Under [others_valid], the declarations split around the field, and
    every other field binds, converts and validates. *)
Lemma split_at_field (t : EntryType) (year_now : Z) (kw : Kwargs)
    (f : string) (k : Kind) (v : PyVal) :
  others_valid t year_now kw f → (f, k) ∈ fields t →
  ∃ pre post,
    cls_attrs (class_of t) = pre ++ declaration (f, k) :: post
    ∧ binds (class_of t) (<[f := v]> kw)
    ∧ Forall (converts (<[f := v]> kw)) (pre ++ post)
    ∧ Forall (validates year_now (<[f := v]> kw)) (pre ++ post).
Proof.
  intros [Hd Ho] Hf. rewrite Forall_forall in Ho.
  pose proof (fields_NoDup t) as Hnd. unfold field_names in Hnd.
  destruct (list_elem_of_split _ _ Hf) as (l1 & l2 & Hl).
  assert (∀ f' k', (f', k') ∈ l1 ++ l2 →
            f' ≠ f ∧ (f', k') ∈ fields t) as Hother.
  { intros f' k' Hin. rewrite Hl in Hnd |- *.
    rewrite fmap_app, fmap_cons in Hnd. simpl in Hnd.
    apply NoDup_app in Hnd as (_ & Hnot & [Hnot2 _]%NoDup_cons).
    apply elem_of_app in Hin as [Hin|Hin].
    - split; [|apply elem_of_app; by left]. intros ->. apply (Hnot f); [|left].
      apply list_elem_of_fmap. by exists (f, k').
    - split; [|apply elem_of_app; right; by right]. intros ->. apply Hnot2.
      apply list_elem_of_fmap. by exists (f, k'). }
  assert (∀ f' k', (f', k') ∈ l1 ++ l2 →
            is_Some (argument (<[f := v]> kw) (declaration (f', k')))
            ∧ converts (<[f := v]> kw) (declaration (f', k'))
            ∧ validates year_now (<[f := v]> kw) (declaration (f', k'))) as Hacc.
  { intros f' k' [Hne Hin]%Hother. apply field_accepted.
    rewrite lookup_insert_ne by done. by apply (Ho _ Hin). }
  exists (declaration <$> l1), (declaration <$> l2). split; [|split; [|split]].
  - by rewrite class_of_fields, Hl, fmap_app.
  - split.
    + rewrite class_of_names, dom_insert_L. apply union_subseteq. split; [|done].
      apply singleton_subseteq_l, elem_of_list_to_set.
      by eapply field_name_declared.
    + rewrite class_of_fields, Hl, Forall_forall.
      intros a ([f' k'] & -> & Hin)%list_elem_of_fmap_1.
      apply elem_of_app in Hin as [Hin|[[= -> ->]|Hin]%elem_of_cons].
      * apply (Hacc f' k'), elem_of_app. by left.
      * unfold argument. rewrite declaration_name, lookup_insert_eq. eauto.
      * apply (Hacc f' k'), elem_of_app. by right.
  - rewrite <- fmap_app, Forall_forall.
    intros a ([f' k'] & -> & Hin)%list_elem_of_fmap_1. by apply Hacc.
  - rewrite <- fmap_app, Forall_forall.
    intros a ([f' k'] & -> & Hin)%list_elem_of_fmap_1. by apply Hacc.
Qed.

Lemma bound_value_insert (kw : Kwargs) (f : string) (k : Kind) (v : PyVal) :
  bound_value (<[f := v]> kw) (declaration (f, k)) = v.
Proof.
  unfold bound_value, argument. by rewrite declaration_name, lookup_insert_eq.
Qed.

Lemma conversion_failure_raised (t : EntryType) (year_now : Z) (kw : Kwargs)
    (f : string) (v : PyVal) (e : PyExc) :
  others_valid t year_now kw f → (f, KYear) ∈ fields t →
  Builtins.int v = Raise e →
  init (class_of t) year_now (<[f := v]> kw) = Raise e.
Proof.
  intros Ho Hf Hv.
  destruct (split_at_field t year_now kw f KYear v Ho Hf)
    as (pre & post & Hl & Hb & Hc & _).
  apply init_Raise_intro. eapply Failure_convert; [done|exact Hl|..].
  - by apply Forall_app in Hc as [Hc _].
  - rewrite bound_value_insert. unfold convert. simpl. by rewrite Hv.
Qed.

Lemma int_Raise_condition (v : PyVal) (e : PyExc) :
  Builtins.int v = Raise e → condition_of e = Some InvalidType.
Proof.
  destruct v as [|b|n|f|s]; simpl; try discriminate.
  - by intros [= <-].
  - destruct f; simpl; try discriminate; by intros [= <-].
  - destruct (Builtins.int_of_string s); [discriminate|..]; by intros [= <-].
Qed.

Lemma trunc_float_finite (s : bool) (m : positive) (e : Z) :
  Builtins.trunc_float (S754_finite s m e) = Ok (truncate_toward_zero s m e).
Proof.
  unfold Builtins.trunc_float, truncate_toward_zero. f_equal.
  destruct (Z.leb_spec 0 e) as [He|He], s; try done.
  - lia.
  - assert (0 < 2 ^ (- e)) by (apply Z.pow_pos_nonneg; lia).
    change (Z.neg m) with (- Z.pos m).
    rewrite Z.quot_opp_l by lia. by rewrite Z.quot_div_nonneg by lia.
  - assert (0 < 2 ^ (- e)) by (apply Z.pow_pos_nonneg; lia).
    by rewrite Z.quot_div_nonneg by lia.
Qed.

(** C2. For every value given as the year, with the other fields valid,
    construction succeeds if and only if the value is coercible to an
    integer that lies in [500, current year + 5]; when the coercion
    fails, construction raises the error of the coercion, which reports a
    type error and not a range error. *)
Theorem year_accepted_iff (t : EntryType) (year_now : Z) (kw : Kwargs) (v : PyVal) :
  others_valid t year_now kw "year" →
  ((∃ inst, init (class_of t) year_now (<["year" := v]> kw) = Ok inst)
   ↔ ∃ n, Builtins.int v = Ok n ∧ 500 <= n <= year_now + 5)
  ∧ (∀ e, Builtins.int v = Raise e →
       init (class_of t) year_now (<["year" := v]> kw) = Raise e
       ∧ condition_of e = Some InvalidType).
Proof.
  intros Ho. split.
  - rewrite <- init_all_valid.
    rewrite (others_valid_insert _ _ _ _ _ v Ho (year_field t)).
    unfold input_valid, stored.
    destruct (Builtins.int v) as [n|e]; simpl.
    + split; [by exists n|]. by intros (n' & [= <-] & H).
    + split; [done|]. by intros (n' & [=] & _).
  - intros e He. split; [|by eapply int_Raise_condition].
    by apply conversion_failure_raised; [|apply year_field|].
Qed.

Lemma year_accepted_iff_witness :
  ((∃ inst, init Article 2026 (<["year" := PStr "1991"]> apprenticeship) = Ok inst)
   ↔ ∃ n, Builtins.int (PStr "1991") = Ok n ∧ 500 <= n <= 2026 + 5)
  ∧ (∀ e, Builtins.int (PStr "1991") = Raise e →
       init Article 2026 (<["year" := PStr "1991"]> apprenticeship) = Raise e
       ∧ condition_of e = Some InvalidType).
Proof.
  apply (year_accepted_iff ArticleT 2026 apprenticeship (PStr "1991")).
  apply (bool_decide_unpack _). vm_compute. exact I.
Defined.

(** ** Omitted optional fields *)

Lemma bind_arguments_ext (cls : Class) (kw1 kw2 : Kwargs) :
  (dom kw1 ⊆ list_to_set (attr_names cls) ↔ dom kw2 ⊆ list_to_set (attr_names cls)) →
  (∀ a, a ∈ cls_attrs cls → argument kw1 a = argument kw2 a) →
  bind_arguments cls kw1 = bind_arguments cls kw2.
Proof.
  intros Hd Ha. unfold bind_arguments, missing.
  assert (filter (fun a => argument kw1 a = None) (cls_attrs cls)
          = filter (fun a => argument kw2 a = None) (cls_attrs cls)) as ->.
  { induction (cls_attrs cls) as [|a l IH]; [done|].
    rewrite !filter_cons, (Ha a) by left.
    rewrite IH; [done|]. intros b Hb. apply Ha. by right. }
  assert (omap (fun a => pair a <$> argument kw1 a) (cls_attrs cls)
          = omap (fun a => pair a <$> argument kw2 a) (cls_attrs cls)) as ->.
  { induction (cls_attrs cls) as [|a l IH]; [done|].
    cbn [omap list_omap]. rewrite (Ha a) by left.
    change (list_omap _ _ ?f l) with (omap f l).
    rewrite IH; [done|]. intros b Hb. apply Ha. by right. }
  destruct (decide (dom kw1 ⊆ _)) as [H1|H1], (decide (dom kw2 ⊆ _)) as [H2|H2];
    tauto.
Qed.

Lemma find_attr_cases (cls : Class) (nm : string) :
  match find_attr cls nm with
  | Some a => a ∈ cls_attrs cls ∧ name a = nm
  | None => nm ∉ attr_names cls
  end.
Proof.
  unfold find_attr, attr_names. induction (cls_attrs cls) as [|a l IH]; simpl.
  - apply not_elem_of_nil.
  - destruct (String.eqb_spec (name a) nm) as [Heq|Hne].
    + split; [by left|done].
    + destruct (find _ l).
      * destruct IH. split; [by right|done].
      * rewrite not_elem_of_cons. done.
Qed.

Lemma find_attr_declared (t : EntryType) (f : string) (k : Kind) :
  (f, k) ∈ fields t → find_attr (class_of t) f = Some (declaration (f, k)).
Proof.
  intros Hf. pose proof (find_attr_cases (class_of t) f) as H.
  destruct (find_attr (class_of t) f) as [a|].
  - destruct H as [(f' & k' & Hf' & ->)%attr_declared Hn].
    rewrite declaration_name in Hn. subst f'.
    by rewrite (fields_functional _ _ _ _ Hf' Hf).
  - destruct H. rewrite class_of_names. by eapply field_name_declared.
Qed.

(** C7. For every entry type and every optional field: the validators of
    the field pass on the default [None] that an omitted field is bound
    to (the [is not None] guard ends both checks), and giving [None] for
    the field has the same outcome, instance or error, as omitting it. *)
Theorem optional_None_as_omitted (t : EntryType) (year_now : Z) (kw : Kwargs)
    (f : string) :
  (f, KOptional) ∈ fields t →
  (∃ a, find_attr (class_of t) f = Some a
        ∧ default a = Some PNone
        ∧ validator a = [check_str; check_len]
        ∧ check_str year_now f PNone = Ok tt
        ∧ check_len year_now f PNone = Ok tt)
  ∧ init (class_of t) year_now (<[f := PNone]> kw)
    = init (class_of t) year_now (delete f kw).
Proof.
  intros Hf. split.
  - exists (declaration (f, KOptional)).
    split; [by apply find_attr_declared|done].
  - unfold init. f_equal. apply bind_arguments_ext.
    + assert (f ∈@{gset string} list_to_set (attr_names (class_of t))) as Hin.
      { rewrite class_of_names, elem_of_list_to_set.
        by eapply field_name_declared. }
      rewrite dom_insert_L, dom_delete_L. split; intros H x Hx.
      * apply H, elem_of_union. right. by apply elem_of_difference in Hx as [? _].
      * apply elem_of_union in Hx as [->%elem_of_singleton|Hx]; [done|].
        destruct (decide (x = f)) as [->|Hne]; [done|].
        apply H, elem_of_difference. split; [done|]. by rewrite elem_of_singleton.
    + intros a (f' & k' & Hf' & ->)%attr_declared. unfold argument.
      rewrite declaration_name. destruct (decide (f' = f)) as [->|Hne].
      * rewrite (fields_functional _ _ _ _ Hf' Hf).
        by rewrite lookup_insert_eq, lookup_delete_eq.
      * by rewrite lookup_insert_ne, lookup_delete_ne.
Qed.

Lemma optional_None_as_omitted_witness :
  (∃ a, find_attr Book "note" = Some a
        ∧ default a = Some PNone
        ∧ validator a = [check_str; check_len]
        ∧ check_str 2026 "note" PNone = Ok tt
        ∧ check_len 2026 "note" PNone = Ok tt)
  ∧ init Book 2026 (<["note" := PNone]> clean_code)
    = init Book 2026 (delete "note" clean_code).
Proof.
  apply (optional_None_as_omitted BookT 2026 clean_code "note").
  apply (bool_decide_unpack _). vm_compute. exact I.
Defined.

(** ** Assignment to a field of an instance *)

Lemma on_setattr_Ok (year_now : Z) (f : string) (k : Kind) (v v' : PyVal) :
  on_setattr (declaration (f, k)) year_now v = Ok v'
  ↔ stored k (Some v) = Some v' ∧ field_valid year_now k v'.
Proof.
  unfold on_setattr. rewrite rbind_Ok. split.
  - intros (w & Hc & Hv%rbind_Ok). destruct Hv as ([] & Hv%validate_field & [= ->]).
    split; [|done]. revert Hc. unfold convert, stored.
    destruct k; simpl; try by intros [= ->].
    destruct (Builtins.int v); simpl; [|done]. by intros [= ->].
  - intros [Hs Hv]. exists v'. split.
    + revert Hs. unfold convert, stored.
      destruct k; simpl; try by intros [= ->].
      destruct (Builtins.int v); simpl; [|done]. by intros [= ->].
    + apply rbind_Ok. exists tt. by rewrite validate_field.
Qed.

(** An assignment either raises and leaves the instance as it was, or
    names a declared field and stores a value that its converter
    produced and its validators accepted. *)
Lemma setattr_cases (t : EntryType) (year_now : Z) (inst : Instance)
    (nm : string) (v : PyVal) :
  (∃ e, setattr (class_of t) year_now inst nm v = (inst, Raise e))
  ∨ (∃ k v', (nm, k) ∈ fields t ∧ stored k (Some v) = Some v'
             ∧ field_valid year_now k v'
             ∧ setattr (class_of t) year_now inst nm v = (<[nm := v']> inst, Ok tt)).
Proof.
  unfold setattr. pose proof (find_attr_cases (class_of t) nm) as H.
  destruct (find_attr (class_of t) nm) as [a|]; [|left; by eexists].
  destruct H as [(f & k & Hf & ->)%attr_declared Hn].
  rewrite declaration_name in Hn. subst f.
  destruct (on_setattr _ year_now v) as [v'|e] eqn:Hs; [|left; by eexists].
  apply on_setattr_Ok in Hs as [Hs Hv]. right. by exists k, v'.
Qed.

Lemma setattr_declared (t : EntryType) (year_now : Z) (inst : Instance)
    (f : string) (k : Kind) (v : PyVal) :
  (f, k) ∈ fields t →
  match stored k (Some v) with
  | Some v' =>
      if decide (field_valid year_now k v')
      then setattr (class_of t) year_now inst f v = (<[f := v']> inst, Ok tt)
      else ∃ e, setattr (class_of t) year_now inst f v = (inst, Raise e)
  | None => ∃ e, setattr (class_of t) year_now inst f v = (inst, Raise e)
  end.
Proof.
  intros Hf. unfold setattr. rewrite (find_attr_declared _ _ _ Hf).
  destruct (on_setattr _ year_now v) as [w|e] eqn:Hs.
  - apply on_setattr_Ok in Hs as [-> Hv]. by rewrite decide_True.
  - destruct (stored k (Some v)) as [v'|] eqn:Hst; [|by eexists].
    destruct (decide _) as [Hv|Hv]; [|by eexists].
    by rewrite (proj2 (on_setattr_Ok year_now f k v v')) in Hs.
Qed.

Lemma setattr_preserves_valid (t : EntryType) (year_now y : Z) (inst : Instance)
    (nm : string) (v : PyVal) :
  y <= year_now →
  instance_valid t year_now inst →
  instance_valid t year_now (setattr (class_of t) y inst nm v).1.
Proof.
  intros Hle Hi.
  destruct (setattr_cases t y inst nm v) as [[e ->] | (k & v' & Hf & _ & Hv & ->)];
    [done|].
  simpl. intros f k' Hf'. destruct (decide (f = nm)) as [->|Hne].
  - rewrite lookup_insert_eq. exists v'. split; [done|].
    rewrite (fields_functional _ _ _ _ Hf' Hf). by eapply field_valid_mono.
  - rewrite lookup_insert_ne by done. by apply Hi.
Qed.

Lemma init_instance_valid (t : EntryType) (year_now : Z) (kw : Kwargs) (inst : Instance) :
  init (class_of t) year_now kw = Ok inst → instance_valid t year_now inst.
Proof.
  intros (_ & Hin & _ & Hst)%init_entry_Ok f k Hf.
  specialize (Hin _ _ Hf). rewrite (Hst _ _ Hf). unfold input_valid in Hin.
  destruct (stored k (kw !! f)) as [v|]; [by exists v|done].
Qed.

Lemma instance_valid_mono (t : EntryType) (year_now year_now' : Z) (inst : Instance) :
  year_now <= year_now' → instance_valid t year_now inst →
  instance_valid t year_now' inst.
Proof.
  intros Hle Hi f k Hf. destruct (Hi _ _ Hf) as (v & Hl & Hv).
  exists v. split; [done|]. by eapply field_valid_mono.
Qed.

(** C3, as stated, fails: a constructed [Book] is assigned a new title,
    and its title has changed. *)
Lemma instance_is_mutable :
  ∃ inst inst',
    init Book 2026 clean_code = Ok inst
    ∧ setattr Book 2026 inst "title" (PStr "Clean Architecture") = (inst', Ok tt)
    ∧ inst !! "title" = Some (PStr "Clean Code")
    ∧ inst' !! "title" = Some (PStr "Clean Architecture").
Proof.
  exists (constructed Book clean_code).
  exists (<["title" := PStr "Clean Architecture"]> (constructed Book clean_code)).
  repeat split; vm_compute; reflexivity.
Qed.

(** ** What a failed construction reports *)

Lemma check_name_Raise (year_now : Z) (attribute s : string) (e : PyExc) :
  check_name year_now attribute (PStr s) = Raise e →
  condition_of e = Some InvalidName ∧ ¬ name_format s.
Proof.
  intros He. split.
  - revert He. unfold check_name. destruct (_ <? 2); [by intros [= <-]|].
    by intros ->%check_tokens_Raise.
  - intros Hn%(check_name_Ok year_now attribute). congruence.
Qed.

Lemma year_range_condition (year_now : Z) :
  condition_of (year_range_error year_now) = Some InvalidYear.
Proof. reflexivity. Qed.

Lemma validation_failure_diagnosed (t : EntryType) (year_now : Z) (kw : Kwargs)
    (f : string) (k : Kind) (e : PyExc) :
  (f, k) ∈ fields t →
  is_Some (argument kw (declaration (f, k))) →
  converts kw (declaration (f, k)) →
  validate (declaration (f, k)) year_now (assigned_value kw (declaration (f, k)))
  = Raise e →
  ∃ c, condition_of e = Some c ∧ violates t year_now kw c.
Proof.
  intros Hf. unfold converts, assigned_value, bound_value, argument, validate, convert.
  destruct k; cbn -[check_name check_len check_year];
    destruct (kw !! f) as [v|] eqn:Hkw; cbn -[check_name check_len check_year];
    try (by intros [? [=]]); intros _ Hc.
  - (* author *)
    destruct v as [| | | |s]; cbn -[check_name check_len check_year];
      try (intros [= <-]; exists InvalidType; split; [done|];
           by eexists f, KAuthor, _).
    intros [Hn|([] & _ & [Hl|([] & _ & [=])]%rbind_Raise)]%rbind_Raise.
    + apply check_name_Raise in Hn as [Hc' Hn].
      exists InvalidName. split; [done|]. by exists f, s.
    + apply check_len_Raise in Hl as [-> ?].
      exists FieldTooLong. split; [done|]. by exists f, KAuthor, s.
  - (* required string *)
    destruct v as [| | | |s]; cbn -[check_name check_len check_year];
      try (intros [= <-]; exists InvalidType; split; [done|];
           by eexists f, KString, _).
    intros [Hl|([] & _ & [=])]%rbind_Raise.
    apply check_len_Raise in Hl as [-> ?].
    exists FieldTooLong. split; [done|]. by exists f, KString, s.
  - (* year *)
    destruct Hc as [w Hw]. destruct (Builtins.int v) as [n|] eqn:Hn; [|done].
    cbn -[check_name check_len check_year].
    intros [Hy|([] & _ & [=])]%rbind_Raise.
    apply check_year_Raise in Hy as [-> Hr].
    exists InvalidYear. split; [apply year_range_condition|].
    by exists f, v, n.
  - (* optional, given *)
    destruct v as [| | | |s]; cbn -[check_name check_len check_year]; try done;
      try (intros [= <-]; exists InvalidType; split; [done|];
           by eexists f, KOptional, _).
    intros [Hl|([] & _ & [=])]%rbind_Raise.
    apply check_len_Raise in Hl as [-> ?].
    exists FieldTooLong. split; [done|]. by exists f, KOptional, s.
Qed.

Lemma failure_diagnosed (t : EntryType) (year_now : Z) (kw : Kwargs) (e : PyExc) :
  Failure (class_of t) year_now kw e →
  ∃ c, condition_of e = Some c ∧ violates t year_now kw c.
Proof.
  destruct 1 as [Hd|Hd Hm|pre a post e Hb Hl Hpre Ha|pre a post e Hb Hc Hl Hpre Ha].
  - exists UnexpectedField. split; [done|].
    rewrite class_of_names in Hd.
    apply (not_set_Forall_Exists (.∈ list_to_set (field_names t))) in Hd
      as (f & Hf & Hn).
    exists f. split; [by apply elem_of_dom|].
    simpl in Hn. by rewrite elem_of_list_to_set in Hn.
  - exists MissingRequiredField. split; [done|].
    unfold missing in Hm.
    destruct (filter _ (cls_attrs (class_of t))) as [|a l] eqn:Hfl; [done|].
    assert (a ∈ filter (fun a => argument kw a = None) (cls_attrs (class_of t)))
      as [Ha (f & k & Hf & ->)%attr_declared]%list_elem_of_filter
      by (rewrite Hfl; left).
    exists f, k. split; [done|]. revert Ha. unfold argument.
    rewrite declaration_name. destruct (kw !! f); [done|].
    by destruct k.
  - assert (a ∈ cls_attrs (class_of t)) as (f & k & Hf & ->)%attr_declared
      by (rewrite Hl, elem_of_app; right; left).
    destruct Hb as [_ Hb]. rewrite Forall_forall in Hb.
    specialize (Hb _ (declared_attr _ _ _ Hf)).
    revert Hb Ha. unfold bound_value, argument, convert.
    destruct k; simpl; try done.
    destruct (kw !! f) as [v|] eqn:Hkw; simpl; [|by intros [? [=]]].
    intros _. destruct (Builtins.int v) as [n|e'] eqn:Hn; simpl; [done|].
    intros [= <-]. exists InvalidType.
    split; [by eapply int_Raise_condition|].
    exists f, KYear, v. repeat split; [done|done|]. by exists e'.
  - assert (a ∈ cls_attrs (class_of t)) as Hin
      by (rewrite Hl, elem_of_app; right; left).
    pose proof Hin as (f & k & Hf & ->)%attr_declared.
    destruct Hb as [_ Hb]. rewrite Forall_forall in Hb, Hc.
    eapply validation_failure_diagnosed; eauto.
Qed.

(** C6 (amended). When construction fails, no instance is returned and
    one error is raised: that of the first step to fail, in the order
    binding of the arguments, converters in declaration order, validators
    in declaration order.  The error reports the rule that was violated,
    and some field of the input does violate that rule; it does not, in
    general, name the field. *)
Theorem failure_first_and_diagnosed (t : EntryType) (year_now : Z) (kw : Kwargs)
    (e : PyExc) :
  init (class_of t) year_now kw = Raise e →
  Failure (class_of t) year_now kw e
  ∧ (∀ inst, init (class_of t) year_now kw ≠ Ok inst)
  ∧ ∃ c, condition_of e = Some c ∧ violates t year_now kw c.
Proof.
  intros Hi. pose proof (init_Raise_inv _ _ _ _ Hi) as HF.
  split; [done|]. split; [by rewrite Hi|]. by apply failure_diagnosed.
Qed.

Lemma failure_first_and_diagnosed_witness :
  Failure Book 2026 (<["author" := PStr "Martin"]> clean_code) name_required_error
  ∧ (∀ inst, init Book 2026 (<["author" := PStr "Martin"]> clean_code) ≠ Ok inst)
  ∧ ∃ c, condition_of name_required_error = Some c
         ∧ violates BookT 2026 (<["author" := PStr "Martin"]> clean_code) c.
Proof.
  apply (failure_first_and_diagnosed BookT 2026
           (<["author" := PStr "Martin"]> clean_code) name_required_error).
  vm_compute. reflexivity.
Defined.

(** C6, as stated, fails: a [Book] whose only invalid field is the title
    and a [Book] whose only invalid field is the publisher raise the same
    error, so no reading of the error gives the field. *)
Lemma error_does_not_name_field :
  ¬ ∃ field_of : PyExc → string,
      ∀ kw e f, init Book 2026 kw = Raise e →
                only_invalid BookT 2026 kw f → field_of e = f.
Proof.
  intros [field_of H].
  assert (field_of too_long_error = "title") as H1.
  { apply (H (<["title" := PStr long_token]> clean_code)).
    - vm_compute. reflexivity.
    - apply (bool_decide_unpack _). vm_compute. exact I. }
  assert (field_of too_long_error = "publisher") as H2.
  { apply (H (<["publisher" := PStr long_token]> clean_code)).
    - vm_compute. reflexivity.
    - apply (bool_decide_unpack _). vm_compute. exact I. }
  congruence.
Qed.

(** ** Fields that are too long *)

Lemma too_long_raised (year_now : Z) (f : string) (k : Kind) (s : string) :
  k ≠ KYear → (k = KAuthor → name_format s) → 5000 < PyString.len s →
  validate (declaration (f, k)) year_now (PStr s) = Raise too_long_error.
Proof.
  intros Hk Hn Hl.
  assert (check_len year_now f (PStr s) = Raise too_long_error) as Hlen.
  { unfold check_len. destruct (Z.ltb_spec 5000 (PyString.len s)); [done|lia]. }
  destruct k; [| |done|]; unfold validate;
    cbn -[check_name check_len check_year].
  - rewrite (proj2 (check_name_Ok year_now f s)) by auto.
    cbn -[check_len]. by rewrite Hlen.
  - by rewrite Hlen.
  - by rewrite Hlen.
Qed.

(** C5, as stated, fails: an author of 5001 letters and no blank makes
    construction fail on the name check, which runs before the length
    check, and the error is not the length error. *)
Lemma long_author_fails_on_name :
  5000 < PyString.len long_token
  ∧ init Book 2026 (<["author" := PStr long_token]> clean_code)
    = Raise name_required_error
  ∧ name_required_error ≠ too_long_error
  ∧ condition_of name_required_error = Some InvalidName.
Proof.
  split; [by vm_compute|]. split; [vm_compute; reflexivity|].
  split; [discriminate|reflexivity].
Qed.

(** ** Accented names *)

(** C1. The docstring of [check_name] and the specification ask for
    names made of the letters [A-Za-z]; [str.isalpha] accepts every
    Unicode letter, so a [Book] whose author is written with U+00E9 is
    constructed although the name is not made of those letters. *)
Lemma accented_author_accepted :
  ¬ ascii_name_format accented_name
  ∧ check_name 2026 "author" (PStr accented_name) = Ok tt
  ∧ ∃ inst, init Book 2026 (<["author" := PStr accented_name]> clean_code) = Ok inst
            ∧ inst !! "author" = Some (PStr accented_name).
Proof.
  split; [|split].
  - apply (bool_decide_unpack _). vm_compute. exact I.
  - vm_compute. reflexivity.
  - eexists. split; vm_compute; reflexivity.
Qed.

(** ** The scenarios of the specification *)

Example scenario_book_constructed :
  ∃ inst, init Book 2026 clean_code = Ok inst
          ∧ inst !! "year" = Some (PInt 2008)
          ∧ inst !! "note" = Some PNone.
Proof. eexists. repeat split; vm_compute; reflexivity. Qed.

Example scenario_single_token_author :
  init Book 2026 (<["author" := PStr "Martin"]> clean_code)
  = Raise name_required_error.
Proof. vm_compute. reflexivity. Qed.

Example scenario_year_2999 :
  init Article 2026 (<["year" := PInt 2999]> apprenticeship)
  = Raise (ValueError "Given year is not in range [500, 2031]").
Proof. vm_compute. reflexivity. Qed.

Example scenario_year_as_string :
  ∃ inst, init Article 2026 (<["year" := PStr "1991"]> apprenticeship) = Ok inst
          ∧ inst !! "year" = Some (PInt 1991).
Proof. eexists. split; vm_compute; reflexivity. Qed.

Example scenario_address_not_a_string :
  init Book 2026 (<["address" := PInt 42]> clean_code) = Raise not_a_string_error.
Proof. vm_compute. reflexivity. Qed.

Example scenario_hyphen_and_apostrophe :
  init Book 2026 (<["author" := PStr "Jean-Paul Sartre"]> clean_code)
  = Raise name_alphabet_error
  ∧ init Book 2026 (<["author" := PStr "Conan O'Brien"]> clean_code)
    = Raise name_alphabet_error.
Proof. split; vm_compute; reflexivity. Qed.

Example scenario_conversion_precedes_validation :
  init Book 2026 (<["author" := PStr "Martin"]> (<["year" := PStr "MMVIII"]> clean_code))
  = Raise (InvalidLiteral "MMVIII").
Proof. vm_compute. reflexivity. Qed.

Example scenario_split :
  PyString.split "  Robert   Martin " = ["Robert"; "Martin"].
Proof. reflexivity. Qed.

Example scenario_int :
  Builtins.int (PStr " +1_991 ") = Ok 1991
  ∧ Builtins.int (PStr "2008.9") = Raise (InvalidLiteral "2008.9")
  ∧ Builtins.int (PFloat float_2008_9) = Ok 2008
  ∧ Builtins.int (PBool true) = Ok 1.
Proof. repeat split; reflexivity. Qed.

(** * Further properties of the module *)

(** ** Tokens of a name *)

Lemma forallb_rev_onto (p : ascii -> bool) (s acc : string) :
  PyString.forallb p (PyString.rev_onto s acc)
  = PyString.forallb p s && PyString.forallb p acc.
Proof.
  revert acc. induction s as [|c s IH]; intros acc; simpl; [done|].
  rewrite IH. simpl. by destruct (p c), (PyString.forallb p s).
Qed.

Lemma rev_onto_nonempty (c : ascii) (s acc : string) :
  PyString.rev_onto (String c s) acc ≠ EmptyString.
Proof.
  assert (∀ s acc, acc ≠ EmptyString → PyString.rev_onto s acc ≠ EmptyString) as H.
  { clear. induction s as [|d s IH]; intros acc Hacc; simpl; [done|].
    by apply IH. }
  simpl. by apply H.
Qed.

Lemma isalpha_forallb (s : string) :
  PyString.isalpha s = true
  ↔ s ≠ EmptyString ∧ PyString.forallb PyString.isalpha_char s = true.
Proof.
  destruct s as [|c s]; simpl; [by split; [|intros []]|].
  split; [by split|by intros []].
Qed.

Lemma emit_alpha (tok : string) (rest : list string) :
  Forall (fun t => PyString.isalpha t = true) (PyString.emit tok rest)
  ↔ PyString.forallb PyString.isalpha_char tok = true
    ∧ Forall (fun t => PyString.isalpha t = true) rest.
Proof.
  destruct tok as [|c tok]; [simpl; tauto|].
  unfold PyString.emit. rewrite Forall_cons, isalpha_forallb, forallb_rev_onto.
  rewrite andb_true_r. split; [tauto|].
  intros [? ?]. repeat split; try done. apply rev_onto_nonempty.
Qed.

Lemma split_from_alpha (tok s : string) :
  Forall (fun t => PyString.isalpha t = true) (PyString.split_from tok s)
  ↔ PyString.forallb PyString.isalpha_char tok = true
    ∧ PyString.forallb letter_or_space s = true.
Proof.
  revert tok. induction s as [|c s IH]; intros tok; simpl.
  - rewrite emit_alpha. split; [by intros []|by intros []].
  - unfold letter_or_space at 1. destruct (PyString.isspace_char c).
    + rewrite emit_alpha, IH, orb_true_r. simpl. tauto.
    + rewrite IH, orb_false_r. simpl. rewrite !andb_true_iff. tauto.
Qed.

Lemma split_from_spaces (s : string) :
  PyString.forallb PyString.isspace_char s = true →
  PyString.split_from EmptyString s = [].
Proof.
  induction s as [|c s IH]; simpl; [done|].
  intros [-> Hs]%andb_prop. simpl. by apply IH.
Qed.

Lemma split_from_no_space (tok s : string) :
  PyString.forallb not_space s = true →
  PyString.split_from tok s = PyString.emit (PyString.rev_onto s tok) [].
Proof.
  revert tok. induction s as [|c s IH]; intros tok; simpl; [done|].
  unfold not_space at 1. intros [Hc Hs]%andb_prop.
  destruct (PyString.isspace_char c); [done|]. by apply IH.
Qed.

Lemma emit_length (tok : string) :
  (length (PyString.emit tok []) <= 1)%nat.
Proof. destruct tok; simpl; lia. Qed.

(** X8. [check_name] accepts a string exactly when it splits into at
    least two tokens and every one of its characters is a letter or a
    whitespace: digits, commas, periods, hyphens and apostrophes anywhere
    in the name make it fail. *)
Theorem check_name_letters_and_spaces (year_now : Z) (attribute s : string) :
  check_name year_now attribute (PStr s) = Ok tt
  ↔ (2 <= length (PyString.split s))%nat
    ∧ PyString.forallb letter_or_space s = true.
Proof.
  rewrite check_name_Ok. unfold name_format, PyString.split.
  rewrite split_from_alpha. simpl. tauto.
Qed.

(** X9. A name that is empty, that is made of whitespace only, or that
    contains no whitespace at all is rejected with the error that asks
    for a first name and a surname, whatever its other characters: the
    count of the tokens is checked before their letters. *)
Theorem check_name_needs_two_tokens (year_now : Z) (attribute s : string) :
  PyString.forallb PyString.isspace_char s = true
  ∨ PyString.forallb not_space s = true →
  check_name year_now attribute (PStr s) = Raise name_required_error.
Proof.
  intros H. unfold check_name.
  assert (length (PyString.split s) <= 1)%nat as Hlen.
  { unfold PyString.split. destruct H as [H|H].
    - rewrite (split_from_spaces _ H). simpl. lia.
    - rewrite (split_from_no_space _ _ H). apply emit_length. }
  destruct (Z.ltb_spec (Z.of_nat (length (PyString.split s))) 2); [done|lia].
Qed.

Lemma check_name_needs_two_tokens_witness :
  check_name 2026 "author" (PStr "Martin,Robert") = Raise name_required_error.
Proof.
  apply (check_name_needs_two_tokens 2026 "author" "Martin,Robert").
  right. vm_compute. reflexivity.
Defined.

(** ** Where construction succeeds *)

Lemma input_valid_mono (year_now year_now' : Z) (k : Kind) (o : option PyVal) :
  year_now <= year_now' → input_valid year_now k o → input_valid year_now' k o.
Proof.
  intros Hle. unfold input_valid. destruct (stored k o); [|done].
  by apply field_valid_mono.
Qed.

Lemma input_valid_explicit (year_now : Z) (k : Kind) (o : option PyVal) :
  input_valid year_now k o
  ↔ match k, o with
    | KAuthor, Some (PStr s) => name_format s ∧ PyString.len s <= 5000
    | KString, Some (PStr s) => PyString.len s <= 5000
    | KYear, Some v => ∃ n, Builtins.int v = Ok n ∧ 500 <= n <= year_now + 5
    | KOptional, Some (PStr s) => PyString.len s <= 5000
    | KOptional, (None | Some PNone) => True
    | _, _ => False
    end.
Proof.
  unfold input_valid, stored, field_valid, year_in_range.
  destruct k, o as [v|]; try done; try (by destruct v).
  destruct (Builtins.int v) as [n|]; split; try done.
  - by exists n.
  - by intros (n' & [= <-] & H).
  - by intros (n' & [=] & H).
Qed.

(** X1. Construction succeeds exactly when the keywords name declared
    fields only and each field, taken alone, is given a valid input:
    there is no constraint across fields. *)
Theorem construction_succeeds_iff (t : EntryType) (year_now : Z) (kw : Kwargs) :
  (∃ inst, init (class_of t) year_now kw = Ok inst)
  ↔ dom kw ⊆ list_to_set (field_names t)
    ∧ ∀ f k, (f, k) ∈ fields t →
        match k, kw !! f with
        | KAuthor, Some (PStr s) => name_format s ∧ PyString.len s <= 5000
        | KString, Some (PStr s) => PyString.len s <= 5000
        | KYear, Some v =>
            ∃ n, Builtins.int v = Ok n ∧ 500 <= n <= year_now + 5
        | KOptional, Some (PStr s) => PyString.len s <= 5000
        | KOptional, (None | Some PNone) => True
        | _, _ => False
        end.
Proof.
  rewrite <- init_all_valid, all_valid_fields.
  split; intros [Hd H]; (split; [done|]); intros f k Hf;
    by apply input_valid_explicit, H.
Qed.

(** X7. A construction that succeeds in one year succeeds in every later
    year, with the same instance: the upper bound of the year only
    grows. *)
Theorem construction_stays_valid (t : EntryType) (year_now year_now' : Z)
    (kw : Kwargs) (inst : Instance) :
  init (class_of t) year_now kw = Ok inst →
  year_now <= year_now' →
  init (class_of t) year_now' kw = Ok inst.
Proof.
  intros (Hd & Hin & Hdi & Hst)%init_entry_Ok Hle. apply init_entry_Ok.
  repeat split; try done. intros f k Hf. eapply input_valid_mono; eauto.
Qed.

Lemma construction_stays_valid_witness :
  init Book 2030 clean_code = Ok (constructed Book clean_code).
Proof.
  apply (construction_stays_valid BookT 2026 2030 clean_code).
  - vm_compute. reflexivity.
  - lia.
Defined.

(** ** Arguments that are not given *)

Lemma argument_None (kw : Kwargs) (f : string) (k : Kind) :
  argument kw (declaration (f, k)) = None ↔ k ≠ KOptional ∧ kw !! f = None.
Proof.
  unfold argument. rewrite declaration_name.
  destruct (kw !! f) as [v|]; [by split; [|intros []]|].
  destruct k; simpl; split; try done; by intros [].
Qed.

Lemma missing_required (l : list (string * Kind)) (kw : Kwargs) :
  name <$> filter (fun a => argument kw a = None) (declaration <$> l)
  = (filter (fun fk => fk.2 ≠ KOptional ∧ kw !! fk.1 = None) l).*1.
Proof.
  induction l as [|[f k] l IH]; [done|].
  rewrite fmap_cons, !filter_cons.
  destruct (decide (argument kw (declaration (f, k)) = None)) as [H1|H1],
    (decide ((f, k).2 ≠ KOptional ∧ kw !! (f, k).1 = None)) as [H2|H2].
  - rewrite !fmap_cons, declaration_name, IH. done.
  - by apply argument_None in H1.
  - by apply argument_None in H2.
  - done.
Qed.

(** X2. When the keywords name declared fields only and some required
    field is not given, construction raises the error of the call that
    lists the required fields not given, in declaration order, whatever
    the values of the fields that are given: no converter and no
    validator has run. *)
Theorem missing_required_reported (t : EntryType) (year_now : Z) (kw : Kwargs) :
  dom kw ⊆ list_to_set (field_names t) →
  required_missing t kw ≠ [] →
  init (class_of t) year_now kw = Raise (MissingArguments (required_missing t kw)).
Proof.
  intros Hd Hm. unfold required_missing in *.
  rewrite <- missing_required, <- class_of_fields in *.
  apply init_Raise_intro. apply Failure_missing; [|done].
  by rewrite class_of_names.
Qed.

Lemma missing_required_reported_witness :
  init Book 2026 (<["title" := PInt 7]> (<["note" := PStr long_token]> ∅))
  = Raise (MissingArguments ["author"; "year"; "publisher"]).
Proof.
  replace ["author"; "year"; "publisher"]
    with (required_missing BookT
            (<["title" := PInt 7]> (<["note" := PStr long_token]> ∅)))
    by (vm_compute; reflexivity).
  apply (missing_required_reported BookT 2026
           (<["title" := PInt 7]> (<["note" := PStr long_token]> ∅))).
  - apply (bool_decide_unpack _). vm_compute. exact I.
  - vm_compute. discriminate.
Defined.

(** ** One invalid field *)

(** With the other fields valid, a field whose converter or validators
    raise makes construction raise the same error. *)
Lemma field_failure_raised (t : EntryType) (year_now : Z) (kw : Kwargs)
    (f : string) (k : Kind) (v : PyVal) (e : PyExc) :
  others_valid t year_now kw f → (f, k) ∈ fields t →
  on_setattr (declaration (f, k)) year_now v = Raise e →
  init (class_of t) year_now (<[f := v]> kw) = Raise e.
Proof.
  intros Ho Hf He.
  destruct (split_at_field t year_now kw f k v Ho Hf)
    as (pre & post & Hl & Hb & Hc & Hv).
  apply Forall_app in Hc as [Hc1 Hc2]. apply Forall_app in Hv as [Hv1 _].
  apply init_Raise_intro. unfold on_setattr in He.
  apply rbind_Raise in He as [He | (w & Hw & He)].
  - eapply Failure_convert; [done|exact Hl|done|].
    by rewrite bound_value_insert.
  - apply rbind_Raise in He as [He | ([] & _ & [=])].
    eapply Failure_validate; [done| |exact Hl|done|].
    + rewrite Hl. apply Forall_app. split; [done|]. constructor; [|done].
      exists w. by rewrite bound_value_insert.
    + unfold assigned_value. by rewrite bound_value_insert, Hw.
Qed.



(** X4. With the other fields valid, a value other than [None] that is
    not a string given for an optional field makes construction raise the
    [ValueError] of [check_str]; the length check that follows it is not
    reached. *)
Theorem optional_string_type_checked (t : EntryType) (year_now : Z) (kw : Kwargs)
    (f : string) (v : PyVal) :
  others_valid t year_now kw f → (f, KOptional) ∈ fields t →
  v ≠ PNone → isinstance v T_str = false →
  init (class_of t) year_now (<[f := v]> kw) = Raise not_a_string_error.
Proof.
  intros Ho Hf Hn Hv. eapply field_failure_raised; [done|exact Hf|].
  by destruct v.
Qed.

Lemma optional_string_type_checked_witness :
  init Book 2026 (<["address" := PInt 42]> clean_code) = Raise not_a_string_error.
Proof.
  apply (optional_string_type_checked BookT 2026 clean_code "address" (PInt 42)).
  - apply (bool_decide_unpack _). vm_compute. exact I.
  - apply (bool_decide_unpack _). vm_compute. exact I.
  - discriminate.
  - reflexivity.
Defined.

(** X5. With the other fields valid, a year that converts to an integer
    below 500 or above the current year plus 5 makes construction raise
    the [ValueError] of [check_year], whose message gives the upper
    bound; the booleans convert to 0 and 1 and are rejected so. *)
Theorem year_out_of_range (t : EntryType) (year_now : Z) (kw : Kwargs)
    (v : PyVal) (n : Z) :
  others_valid t year_now kw "year" →
  Builtins.int v = Ok n →
  n < 500 ∨ year_now + 5 < n →
  init (class_of t) year_now (<["year" := v]> kw)
  = Raise (ValueError ("Given year is not in range [500, "
                       +:+ PyString.of_Z (year_now + 5) +:+ "]")).
Proof.
  intros Ho Hn Hr. eapply field_failure_raised; [done|apply year_field|].
  unfold on_setattr, convert, validate. cbn -[check_year]. rewrite Hn.
  cbn -[check_year].
  destruct (check_year year_now "year" (PInt n)) as [[]|e] eqn:Hy.
  - apply check_year_Ok in Hy. unfold year_in_range in Hy. lia.
  - by apply check_year_Raise in Hy as [-> _].
Qed.

Lemma year_out_of_range_witness :
  init Book 2026 (<["year" := PBool true]> clean_code)
  = Raise (ValueError "Given year is not in range [500, 2031]").
Proof.
  apply (year_out_of_range BookT 2026 clean_code (PBool true) 1).
  - apply (bool_decide_unpack _). vm_compute. exact I.
  - reflexivity.
  - left. lia.
Defined.

(** X15. With the other fields valid, every string of at most 5000
    characters is accepted for a required string field other than the
    author and for an optional field, the empty string and strings of
    whitespace included, and it is stored as it was given. *)
Theorem string_field_unconstrained (t : EntryType) (year_now : Z) (kw : Kwargs)
    (f : string) (k : Kind) (s : string) :
  others_valid t year_now kw f → (f, k) ∈ fields t →
  k = KString ∨ k = KOptional →
  PyString.len s <= 5000 →
  ∃ inst, init (class_of t) year_now (<[f := PStr s]> kw) = Ok inst
          ∧ inst !! f = Some (PStr s).
Proof.
  intros Ho Hf Hk Hl.
  assert (all_valid t year_now (<[f := PStr s]> kw)) as Hv.
  { apply (others_valid_insert _ _ _ _ _ _ Ho Hf). by destruct Hk as [-> | ->]. }
  pose proof Hv as [inst Hi]%init_all_valid. exists inst. split; [done|].
  apply init_entry_Ok in Hi as (_ & _ & _ & Hst).
  rewrite (Hst _ _ Hf), lookup_insert_eq. by destruct Hk as [-> | ->].
Qed.

Lemma string_field_unconstrained_witness :
  ∃ inst, init Book 2026 (<["title" := PStr ""]> clean_code) = Ok inst
          ∧ inst !! "title" = Some (PStr "").
Proof.
  apply (string_field_unconstrained BookT 2026 clean_code "title" KString "").
  - apply (bool_decide_unpack _). vm_compute. exact I.
  - apply (bool_decide_unpack _). vm_compute. exact I.
  - by left.
  - vm_compute. discriminate.
Defined.

(** ** The errors of construction *)

Lemma year_field_unique (t : EntryType) (f : string) :
  (f, KYear) ∈ fields t → f = "year".
Proof.
  intros Hf.
  assert (Forall (fun fk => fk.2 = KYear → fk.1 = "year") (fields t)) as H
    by (destruct t; apply (bool_decide_unpack _); by vm_compute).
  rewrite Forall_forall in H. by apply (H _ Hf).
Qed.

Lemma missing_class_of (t : EntryType) (kw : Kwargs) :
  missing (class_of t) kw = required_missing t kw.
Proof.
  unfold missing, required_missing. rewrite class_of_fields.
  apply missing_required.
Qed.

Lemma binds_entry (t : EntryType) (kw : Kwargs) :
  dom kw ⊆ list_to_set (field_names t) → required_missing t kw = [] →
  binds (class_of t) kw.
Proof.
  intros Hd Hm. split; [by rewrite class_of_names|].
  apply missing_nil. by rewrite missing_class_of.
Qed.

Lemma converts_no_converter (kw : Kwargs) (f : string) (k : Kind) :
  k ≠ KYear → converts kw (declaration (f, k)).
Proof. intros Hk. unfold converts, convert. destruct k; by eauto. Qed.

(** X6. When every required field is given and the year cannot be
    converted to an integer, construction raises the error of the
    conversion, whatever the other fields hold: every converter runs
    before the first validator, so an invalid author or title is not
    reported. *)
Theorem conversion_error_first (t : EntryType) (year_now : Z) (kw : Kwargs)
    (v : PyVal) (e : PyExc) :
  dom kw ⊆ list_to_set (field_names t) →
  required_missing t kw = [] →
  kw !! "year" = Some v →
  Builtins.int v = Raise e →
  init (class_of t) year_now kw = Raise e.
Proof.
  intros Hd Hm Hy He. pose proof (binds_entry _ _ Hd Hm) as Hb.
  destruct (list_elem_of_split _ _ (year_field t)) as (l1 & l2 & Hl).
  apply init_Raise_intro.
  apply (Failure_convert _ _ _ (declaration <$> l1)
           (declaration ("year", KYear)) (declaration <$> l2)); [done|..].
  - by rewrite class_of_fields, Hl, fmap_app.
  - rewrite Forall_forall. intros a ([f k] & -> & Hin)%list_elem_of_fmap_1.
    apply converts_no_converter. intros ->.
    assert ((f, KYear) ∈ fields t) as Hf
      by (rewrite Hl; apply elem_of_app; by left).
    apply year_field_unique in Hf as ->.
    pose proof (fields_NoDup t) as Hnd. unfold field_names in Hnd.
    rewrite Hl, fmap_app, fmap_cons in Hnd.
    apply NoDup_app in Hnd as (_ & Hnot & _).
    apply (Hnot "year"); [|by left].
    apply list_elem_of_fmap. by exists ("year", KYear).
  - unfold bound_value, argument, convert. simpl. rewrite Hy. simpl.
    by rewrite He.
Qed.

Lemma conversion_error_first_witness :
  init Book 2026
    (<["author" := PStr "Martin"]> (<["title" := PInt 7]>
       (<["year" := PStr "MMVIII"]> clean_code)))
  = Raise (InvalidLiteral "MMVIII").
Proof.
  apply (conversion_error_first BookT 2026
           (<["author" := PStr "Martin"]> (<["title" := PInt 7]>
              (<["year" := PStr "MMVIII"]> clean_code)))
           (PStr "MMVIII")).
  - apply (bool_decide_unpack _). vm_compute. exact I.
  - vm_compute. reflexivity.
  - vm_compute. reflexivity.
  - vm_compute. reflexivity.
Defined.

Lemma validation_failure_origin (t : EntryType) (year_now : Z) (kw : Kwargs)
    (f : string) (k : Kind) (e : PyExc) :
  (f, k) ∈ fields t →
  is_Some (argument kw (declaration (f, k))) →
  converts kw (declaration (f, k)) →
  validate (declaration (f, k)) year_now (assigned_value kw (declaration (f, k)))
  = Raise e →
  (∃ f k v, (f, k) ∈ fields t ∧ (k = KAuthor ∨ k = KString)
            ∧ kw !! f = Some v ∧ isinstance v T_str = false
            ∧ e = NotInstance f T_str v)
  ∨ e ∈ module_errors year_now.
Proof.
  intros Hf. unfold converts, assigned_value, bound_value, argument, validate, convert.
  unfold module_errors.
  destruct k; cbn -[check_name check_len check_year];
    destruct (kw !! f) as [v|] eqn:Hkw; cbn -[check_name check_len check_year];
    try (by intros [? [=]]); intros _ Hc.
  - (* author *)
    destruct v as [| | | |s]; cbn -[check_name check_len check_year];
      try (intros [= <-]; left; eexists f, KAuthor, _; by eauto 10).
    intros [Hn|([] & _ & [Hl|([] & _ & [=])]%rbind_Raise)]%rbind_Raise; right.
    + revert Hn. unfold check_name. destruct (_ <? 2).
      * intros [= <-]. by left.
      * intros ->%check_tokens_Raise. right. by left.
    + apply check_len_Raise in Hl as [-> ?]. do 2 right. by left.
  - (* required string *)
    destruct v as [| | | |s]; cbn -[check_name check_len check_year];
      try (intros [= <-]; left; eexists f, KString, _; by eauto 10).
    intros [Hl|([] & _ & [=])]%rbind_Raise; right.
    apply check_len_Raise in Hl as [-> ?]. do 2 right. by left.
  - (* year *)
    destruct Hc as [w Hw]. destruct (Builtins.int v) as [n|] eqn:Hn; [|done].
    cbn -[check_name check_len check_year].
    intros [Hy|([] & _ & [=])]%rbind_Raise; right.
    apply check_year_Raise in Hy as [-> Hr]. do 4 right. by left.
  - (* optional, given *)
    destruct v as [| | | |s]; cbn -[check_name check_len check_year]; try done;
      try (intros [= <-]; right; do 3 right; by left).
    intros [Hl|([] & _ & [=])]%rbind_Raise; right.
    apply check_len_Raise in Hl as [-> ?]. do 2 right. by left.
Qed.

Lemma init_Raise_origin (t : EntryType) (year_now : Z) (kw : Kwargs) (e : PyExc) :
  init (class_of t) year_now kw = Raise e →
  e = UnexpectedKeyword
  ∨ e = MissingArguments (required_missing t kw)
  ∨ (∃ v, kw !! "year" = Some v ∧ Builtins.int v = Raise e)
  ∨ (∃ f k v, (f, k) ∈ fields t ∧ (k = KAuthor ∨ k = KString)
              ∧ kw !! f = Some v ∧ isinstance v T_str = false
              ∧ e = NotInstance f T_str v)
  ∨ e ∈ module_errors year_now.
Proof.
  intros HF%init_Raise_inv.
  destruct HF as [Hd|Hd Hm|pre a post e Hb Hl Hpre Ha|pre a post e Hb Hc Hl Hpre Ha].
  - by left.
  - right; left. by rewrite missing_class_of.
  - do 2 right; left.
    assert (a ∈ cls_attrs (class_of t)) as (f & k & Hf & ->)%attr_declared
      by (rewrite Hl, elem_of_app; right; left).
    destruct Hb as [_ Hb]. rewrite Forall_forall in Hb.
    specialize (Hb _ (declared_attr _ _ _ Hf)).
    revert Hb Ha. unfold bound_value, argument, convert.
    destruct k; simpl; try done.
    apply year_field_unique in Hf as ->.
    destruct (kw !! "year") as [v|] eqn:Hkw; simpl; [|by intros [? [=]]].
    intros _. destruct (Builtins.int v) as [n|e'] eqn:Hn; simpl; [done|].
    intros [= <-]. by exists v.
  - do 3 right.
    assert (a ∈ cls_attrs (class_of t)) as Hin
      by (rewrite Hl, elem_of_app; right; left).
    pose proof Hin as (f & k & Hf & ->)%attr_declared.
    destruct Hb as [_ Hb]. rewrite Forall_forall in Hb, Hc.
    eapply validation_failure_origin; eauto.
Qed.

Lemma int_Raise_cases (v : PyVal) (e : PyExc) :
  Builtins.int v = Raise e →
  e = TypeError
        "int() argument must be a string, a bytes-like object or a real number, not 'NoneType'"
  ∨ e = OverflowError "cannot convert float infinity to integer"
  ∨ e = ValueError "cannot convert float NaN to integer"
  ∨ ∃ s, v = PStr s ∧ (e = InvalidLiteral s ∨ ∃ d, e = DigitLimit d).
Proof.
  destruct v as [|b|n|f|s]; simpl; try discriminate.
  - intros [= <-]. by left.
  - destruct f; simpl; try discriminate; intros [= <-]; auto.
  - destruct (Builtins.int_of_string s) as [n| |d]; [discriminate|..];
      intros [= <-]; do 3 right; exists s; eauto.
Qed.



(** X11. Construction never applies a validator to a value it cannot
    handle: it raises no [AttributeError] (no [split] on a value that is
    not a string), no [TypeError] of [len] or of a comparison, and the
    [instance_of(int)] check on the converted year never fails. *)
Theorem validators_never_misapplied (t : EntryType) (year_now : Z) (kw : Kwargs)
    (e : PyExc) :
  init (class_of t) year_now kw = Raise e →
  (∀ msg, e ≠ AttributeError msg)
  ∧ (∀ f v, e ≠ NotInstance f T_int v)
  ∧ (∀ v, e ≠ TypeError ("object of type '" +:+ type_name v +:+ "' has no len()"))
  ∧ (∀ op v, e ≠ Builtins.unorderable op v).
Proof.
  intros [->|[->|[(v & _ & Hv)|[(f & k & v & _ & _ & _ & _ & ->)|Hm]]]]%init_Raise_origin.
  - done.
  - done.
  - apply int_Raise_cases in Hv as [->|[->|[->|(s & _ & [->|[d ->]])]]]; done.
  - done.
  - unfold module_errors in Hm.
    repeat (apply elem_of_cons in Hm as [->|Hm]); try done.
    by apply elem_of_nil in Hm.
Qed.

Lemma validators_never_misapplied_witness :
  (∀ msg, not_a_string_error ≠ AttributeError msg)
  ∧ (∀ f v, not_a_string_error ≠ NotInstance f T_int v)
  ∧ (∀ v, not_a_string_error
          ≠ TypeError ("object of type '" +:+ type_name v +:+ "' has no len()"))
  ∧ (∀ op v, not_a_string_error ≠ Builtins.unorderable op v).
Proof.
  apply (validators_never_misapplied BookT 2026
           (<["address" := PInt 42]> clean_code)).
  vm_compute. reflexivity.
Defined.

(** ** Assignment and construction *)

Lemma init_others_valid (t : EntryType) (year_now : Z) (kw : Kwargs)
    (inst : Instance) (f : string) :
  init (class_of t) year_now kw = Ok inst → others_valid t year_now kw f.
Proof.
  intros (Hd & Hin & _)%init_entry_Ok. split; [done|].
  rewrite Forall_forall. intros [f' k'] Hf' _. by apply Hin.
Qed.

(** X12. Assigning a value to a declared field of a constructed instance
    has the outcome of constructing with that value for the field: the
    same instance when the value is accepted, the same error when it is
    not. *)
Theorem assignment_as_construction (t : EntryType) (year_now : Z) (kw : Kwargs)
    (inst : Instance) (f : string) (k : Kind) (v : PyVal) :
  init (class_of t) year_now kw = Ok inst →
  (f, k) ∈ fields t →
  init (class_of t) year_now (<[f := v]> kw)
  = as_construction (setattr (class_of t) year_now inst f v).
Proof.
  intros Hi Hf. pose proof (init_others_valid _ _ _ _ f Hi) as Ho.
  unfold setattr, as_construction. rewrite (find_attr_declared _ _ _ Hf).
  destruct (on_setattr (declaration (f, k)) year_now v) as [v'|e] eqn:Hs; simpl.
  - apply on_setattr_Ok in Hs as [Hst Hv].
    apply init_entry_Ok in Hi as (Hd & Hin & Hdi & Hl).
    assert (all_valid t year_now (<[f := v]> kw)) as [Hd' Hin']%all_valid_fields.
    { apply (others_valid_insert _ _ _ _ _ _ Ho Hf).
      unfold input_valid. by rewrite Hst. }
    apply init_entry_Ok. split; [done|]. split; [done|]. split.
    + rewrite dom_insert_L, Hdi. apply subseteq_union_1_L.
      apply singleton_subseteq_l, elem_of_list_to_set.
      by eapply field_name_declared.
    + intros f' k' Hf'. destruct (decide (f' = f)) as [->|Hne].
      * rewrite !lookup_insert_eq. by rewrite (fields_functional _ _ _ _ Hf' Hf).
      * rewrite !lookup_insert_ne by done. by apply Hl.
  - by eapply field_failure_raised.
Qed.

Lemma assignment_as_construction_witness :
  init Book 2026 (<["year" := PStr "2999"]> clean_code)
  = as_construction (setattr Book 2026 (constructed Book clean_code)
                       "year" (PStr "2999")).
Proof.
  apply (assignment_as_construction BookT 2026 clean_code
           (constructed Book clean_code) "year" KYear (PStr "2999")).
  - vm_compute. reflexivity.
  - apply (bool_decide_unpack _). vm_compute. exact I.
Defined.

(** X14. Assigning to a declared field the value it holds succeeds and
    leaves the instance as it is, provided the instance is valid in the
    year of the assignment: the converter maps a stored year to itself. *)
Theorem assignment_of_held_value (t : EntryType) (year_now : Z)
    (inst : Instance) (f : string) (k : Kind) (v : PyVal) :
  instance_valid t year_now inst →
  (f, k) ∈ fields t →
  inst !! f = Some v →
  setattr (class_of t) year_now inst f v = (inst, Ok tt).
Proof.
  intros Hi Hf Hl. destruct (Hi _ _ Hf) as (v' & Hl' & Hv).
  assert (v' = v) as -> by congruence.
  pose proof (setattr_declared t year_now inst f k v Hf) as H.
  rewrite (stored_valid_again _ _ _ Hv), decide_True in H by done.
  by rewrite H, insert_id.
Qed.

Lemma assignment_of_held_value_witness :
  setattr Book 2026 (constructed Book clean_code) "year" (PInt 2008)
  = (constructed Book clean_code, Ok tt).
Proof.
  apply (assignment_of_held_value BookT 2026 (constructed Book clean_code)
           "year" KYear (PInt 2008)).
  - apply (init_instance_valid BookT 2026 clean_code). vm_compute. reflexivity.
  - apply (bool_decide_unpack _). vm_compute. exact I.
  - vm_compute. reflexivity.
Defined.

(** X13. Assignments to two different names commute: in either order
    they leave the instance in the same state and each of them has the
    same outcome, since an assignment is checked against the new value
    only and not against the other fields. *)
Theorem assignments_commute (cls : Class) (y1 y2 : Z) (inst : Instance)
    (f g : string) (v w : PyVal) :
  f ≠ g →
  let first_f := setattr cls y1 inst f v in
  let then_g := setattr cls y2 first_f.1 g w in
  let first_g := setattr cls y2 inst g w in
  let then_f := setattr cls y1 first_g.1 f v in
  then_g.1 = then_f.1 ∧ first_f.2 = then_f.2 ∧ then_g.2 = first_g.2.
Proof.
  intros Hne. unfold setattr. simpl.
  destruct (find_attr cls f) as [a|], (find_attr cls g) as [b|]; simpl;
    try destruct (on_setattr a y1 v); try destruct (on_setattr b y2 w); simpl;
    repeat split; try done.
  by apply insert_insert_ne.
Qed.

Lemma assignments_commute_witness :
  let first_f := setattr Book 2026 (constructed Book clean_code)
                   "title" (PStr "Clean Architecture") in
  let then_g := setattr Book 2027 first_f.1 "year" (PInt 2017) in
  let first_g := setattr Book 2027 (constructed Book clean_code)
                   "year" (PInt 2017) in
  let then_f := setattr Book 2026 first_g.1 "title" (PStr "Clean Architecture") in
  then_g.1 = then_f.1 ∧ first_f.2 = then_f.2 ∧ then_g.2 = first_g.2.
Proof.
  apply (assignments_commute Book 2026 2027 (constructed Book clean_code)
           "title" "year" (PStr "Clean Architecture") (PInt 2017)).
  discriminate.
Defined.

(** ** The year, through its conversion *)

Lemma on_setattr_year_int (year_now : Z) (f : string) (v w : PyVal) :
  Builtins.int v = Builtins.int w →
  on_setattr (declaration (f, KYear)) year_now v
  = on_setattr (declaration (f, KYear)) year_now w.
Proof. intros H. unfold on_setattr, convert. simpl. by rewrite H. Qed.

(** With the other fields valid, construction is decided by the outcome
    of converter and validators on the one field. *)
Lemma single_field_construction (t : EntryType) (year_now : Z) (kw : Kwargs)
    (f : string) (k : Kind) (v : PyVal) :
  others_valid t year_now kw f → (f, k) ∈ fields t →
  match on_setattr (declaration (f, k)) year_now v with
  | Ok v' =>
      ∃ inst, init (class_of t) year_now (<[f := v]> kw) = Ok inst
              ∧ inst !! f = Some v'
              ∧ ∀ g j, (g, j) ∈ fields t → g ≠ f → inst !! g = stored j (kw !! g)
  | Raise e => init (class_of t) year_now (<[f := v]> kw) = Raise e
  end.
Proof.
  intros Ho Hf.
  destruct (on_setattr (declaration (f, k)) year_now v) as [v'|e] eqn:Hs;
    [|by eapply field_failure_raised].
  apply on_setattr_Ok in Hs as [Hst Hv].
  assert (all_valid t year_now (<[f := v]> kw)) as Hall.
  { apply (others_valid_insert _ _ _ _ _ _ Ho Hf). unfold input_valid.
    by rewrite Hst. }
  pose proof Hall as [inst Hi]%init_all_valid. exists inst. split; [done|].
  apply init_entry_Ok in Hi as (_ & _ & _ & Hl). split.
  - by rewrite (Hl _ _ Hf), lookup_insert_eq.
  - intros g j Hg Hne. by rewrite (Hl _ _ Hg), lookup_insert_ne.
Qed.

Lemma year_by_conversion (t : EntryType) (year_now : Z) (kw : Kwargs) (v w : PyVal) :
  others_valid t year_now kw "year" →
  Builtins.int v = Builtins.int w →
  init (class_of t) year_now (<["year" := v]> kw)
  = init (class_of t) year_now (<["year" := w]> kw).
Proof.
  intros Ho Hvw.
  pose proof (single_field_construction t year_now kw "year" KYear v Ho
                (year_field t)) as Hv.
  pose proof (single_field_construction t year_now kw "year" KYear w Ho
                (year_field t)) as Hw.
  rewrite <- (on_setattr_year_int year_now "year" v w Hvw) in Hw.
  destruct (on_setattr (declaration ("year", KYear)) year_now v) as [v'|e];
    [|by rewrite Hv, Hw].
  destruct Hv as (i1 & Hi1 & Hy1 & Ho1), Hw as (i2 & Hi2 & Hy2 & Ho2).
  rewrite Hi1, Hi2. f_equal. apply map_eq. intros g.
  apply init_entry_Ok in Hi1 as (_ & _ & Hd1 & _).
  apply init_entry_Ok in Hi2 as (_ & _ & Hd2 & _).
  destruct (decide (g ∈ field_names t)) as [Hg|Hg].
  - apply list_elem_of_fmap_1 in Hg as ([g' j] & -> & Hg). simpl.
    destruct (decide (g' = "year")) as [->|Hne]; [by rewrite Hy1, Hy2|].
    by rewrite (Ho1 _ _ Hg Hne), (Ho2 _ _ Hg Hne).
  - transitivity (@None PyVal); [|symmetry]; apply not_elem_of_dom.
    + rewrite Hd1. by rewrite elem_of_list_to_set.
    + rewrite Hd2. by rewrite elem_of_list_to_set.
Qed.

(** X16. With the other fields valid, the outcome of construction depends
    on the value given for the year through its conversion to an integer
    only: two values that [int] maps alike (an integer, a float with that
    integer part, a string that spells it) give the same instance or the
    same error. *)
Theorem year_values_interchangeable (t : EntryType) (year_now : Z) (kw : Kwargs)
    (v w : PyVal) :
  others_valid t year_now kw "year" →
  Builtins.int v = Builtins.int w →
  init (class_of t) year_now (<["year" := v]> kw)
  = init (class_of t) year_now (<["year" := w]> kw).
Proof. apply year_by_conversion. Qed.

Lemma year_values_interchangeable_witness :
  init Book 2026 (<["year" := PFloat float_2008_9]> clean_code)
  = init Book 2026 (<["year" := PStr " 2_008 "]> clean_code).
Proof.
  apply (year_values_interchangeable BookT 2026 clean_code).
  - apply (bool_decide_unpack _). vm_compute. exact I.
  - vm_compute. reflexivity.
Defined.

(** * Floats as the year; assignment and deletion; the length error *)

(** ** A float given as the year *)

Lemma on_setattr_year (year_now : Z) (v : PyVal) :
  on_setattr (declaration ("year", KYear)) year_now v
  = match Builtins.int v with
    | Ok n =>
        if decide (year_in_range year_now n) then Ok (PInt n)
        else Raise (year_range_error year_now)
    | Raise e => Raise e
    end.
Proof.
  unfold on_setattr, convert, validate. cbn -[check_year].
  destruct (Builtins.int v) as [n|e]; [|done]. cbn -[check_year].
  destruct (check_year year_now "year" (PInt n)) as [[]|e] eqn:Hy.
  - apply check_year_Ok in Hy. by rewrite decide_True.
  - apply check_year_Raise in Hy as [-> Hr]. by rewrite decide_False.
Qed.

Lemma year_outcome (t : EntryType) (year_now : Z) (kw : Kwargs) (v : PyVal) :
  others_valid t year_now kw "year" →
  match Builtins.int v with
  | Ok n =>
      if decide (year_in_range year_now n)
      then ∃ inst, init (class_of t) year_now (<["year" := v]> kw) = Ok inst
                   ∧ inst !! "year" = Some (PInt n)
      else init (class_of t) year_now (<["year" := v]> kw)
           = Raise (year_range_error year_now)
  | Raise e => init (class_of t) year_now (<["year" := v]> kw) = Raise e
  end.
Proof.
  intros Ho.
  pose proof (single_field_construction t year_now kw "year" KYear v Ho
                (year_field t)) as H.
  rewrite on_setattr_year in H.
  destruct (Builtins.int v) as [n|e]; [|done].
  destruct (decide (year_in_range year_now n)); [|done].
  destruct H as (inst & Hi & Hy & _). by exists inst.
Qed.

(** C9 (amended). A float given as the year is passed to [int].  A finite
    float is not rejected as a type error: [int] truncates it toward
    zero, and, with the other fields valid, construction succeeds and
    stores the truncated integer exactly when that integer lies in
    [500, current year + 5], and raises the range error of [check_year]
    when it does not.  NaN and the infinities are rejected by [int]
    itself, which is a type-check rejection. *)
Theorem float_year_outcome (t : EntryType) (year_now : Z) (kw : Kwargs) :
  others_valid t year_now kw "year" →
  (∀ s m e,
     let n := truncate_toward_zero s m e in
     let given := <["year" := PFloat (S754_finite s m e)]> kw in
     Builtins.int (PFloat (S754_finite s m e)) = Ok n
     ∧ (year_in_range year_now n →
        ∃ inst, init (class_of t) year_now given = Ok inst
                ∧ inst !! "year" = Some (PInt n))
     ∧ (¬ year_in_range year_now n →
        init (class_of t) year_now given = Raise (year_range_error year_now)
        ∧ condition_of (year_range_error year_now) = Some InvalidYear))
  ∧ (∀ s, init (class_of t) year_now (<["year" := PFloat (S754_zero s)]> kw)
          = Raise (year_range_error year_now))
  ∧ (init (class_of t) year_now (<["year" := PFloat S754_nan]> kw)
     = Raise (ValueError "cannot convert float NaN to integer")
     ∧ condition_of (ValueError "cannot convert float NaN to integer")
       = Some InvalidType)
  ∧ (∀ s, init (class_of t) year_now (<["year" := PFloat (S754_infinity s)]> kw)
          = Raise (OverflowError "cannot convert float infinity to integer")
          ∧ condition_of (OverflowError "cannot convert float infinity to integer")
            = Some InvalidType).
Proof.
  intros Ho. split; [|split; [|split]].
  - intros s m e n given. subst n given.
    pose proof (year_outcome t year_now kw (PFloat (S754_finite s m e)) Ho) as H.
    assert (Builtins.int (PFloat (S754_finite s m e))
            = Ok (truncate_toward_zero s m e)) as Hint
      by apply trunc_float_finite.
    rewrite Hint in H. split; [done|].
    destruct (decide (year_in_range year_now (truncate_toward_zero s m e)))
      as [Hr|Hr]; split.
    + by intros _.
    + by intros Hn.
    + by intros Hn.
    + intros _. split; [done|]. apply year_range_condition.
  - intros s.
    pose proof (year_outcome t year_now kw (PFloat (S754_zero s)) Ho) as H.
    unfold Builtins.int, Builtins.trunc_float in H.
    destruct (decide (year_in_range year_now 0)) as [Hr|Hr]; [|done].
    unfold year_in_range in Hr. lia.
  - split; [|done]. apply (year_outcome t year_now kw (PFloat S754_nan) Ho).
  - intros s. split; [|done].
    apply (year_outcome t year_now kw (PFloat (S754_infinity s)) Ho).
Qed.

Lemma float_year_outcome_witness :
  (∃ inst, init Book 2026 (<["year" := PFloat float_2008_9]> clean_code) = Ok inst
           ∧ inst !! "year" = Some (PInt 2008))
  ∧ init Book 2026 (<["year" := PFloat S754_nan]> clean_code)
    = Raise (ValueError "cannot convert float NaN to integer").
Proof.
  assert (others_valid BookT 2026 clean_code "year") as Ho
    by (apply (bool_decide_unpack _); vm_compute; exact I).
  destruct (float_year_outcome BookT 2026 clean_code Ho)
    as (Hfin & _ & [Hnan _] & _).
  split; [|exact Hnan].
  destruct (Hfin false 4417617818078413%positive (-41)) as (_ & Hin & _).
  apply Hin. apply (bool_decide_unpack _). vm_compute. exact I.
Defined.

(** C9, as stated, fails: NaN is a numeric value that is not integral,
    and a [Book] given it as the year is rejected by the conversion, a
    type-check rejection. *)
Lemma nan_year_rejected :
  init Book 2026 (<["year" := PFloat S754_nan]> clean_code)
  = Raise (ValueError "cannot convert float NaN to integer")
  ∧ condition_of (ValueError "cannot convert float NaN to integer")
    = Some InvalidType.
Proof. split; vm_compute; reflexivity. Qed.

(** ** Assignments and deletions *)

Lemma find_attr_undeclared (t : EntryType) (nm : string) :
  nm ∉ field_names t → find_attr (class_of t) nm = None.
Proof.
  intros Hn. pose proof (find_attr_cases (class_of t) nm) as H.
  destruct (find_attr (class_of t) nm) as [a|]; [|done].
  destruct H as [Ha <-]. destruct Hn. rewrite <- class_of_names.
  by apply list_elem_of_fmap_2.
Qed.

Lemma find_attr_is_Some (t : EntryType) (nm : string) :
  nm ∈ field_names t → is_Some (find_attr (class_of t) nm).
Proof.
  intros ([f k] & -> & Hf)%list_elem_of_fmap_1. simpl.
  rewrite (find_attr_declared _ _ _ Hf). eauto.
Qed.

Lemma delattr_cases (t : EntryType) (inst : Instance) (nm : string) :
  (nm ∈ field_names t → is_Some (inst !! nm) →
   delattr (class_of t) inst nm = (delete nm inst, Ok tt))
  ∧ (nm ∉ field_names t ∨ inst !! nm = None →
     ∃ e, delattr (class_of t) inst nm = (inst, Raise e)).
Proof.
  unfold delattr. split.
  - intros [a ->]%find_attr_is_Some [v ->]. done.
  - intros [Hn|Hn].
    + rewrite (find_attr_undeclared _ _ Hn). by eexists.
    + destruct (find_attr (class_of t) nm); rewrite ?Hn; by eexists.
Qed.

Lemma step_cases (t : EntryType) (inst : Instance) (op : Operation) :
  step (class_of t) inst op = inst
  ∨ (∃ nm, step (class_of t) inst op = delete nm inst)
  ∨ (∃ y nm v k v', op = Assign y nm v ∧ (nm, k) ∈ fields t
                    ∧ field_valid y k v'
                    ∧ step (class_of t) inst op = <[nm := v']> inst).
Proof.
  destruct op as [y nm v|nm]; simpl.
  - destruct (setattr_cases t y inst nm v) as [[e ->]|(k & v' & Hf & _ & Hv & ->)];
      [by left|].
    right; right. by exists y, nm, v, k, v'.
  - unfold delattr. destruct (find_attr (class_of t) nm); [|by left].
    destruct (inst !! nm); [|by left]. right; left. by exists nm.
Qed.

Lemma step_preserves_held (t : EntryType) (year_now : Z) (inst : Instance)
    (op : Operation) :
  no_later_than year_now op →
  held_valid t year_now inst →
  held_valid t year_now (step (class_of t) inst op).
Proof.
  intros Hop Hi.
  destruct (step_cases t inst op)
    as [->|[[nm ->]|(y & nm & v & k & v' & -> & Hf & Hv & ->)]]; [done|..].
  - intros f w [_ Hl]%lookup_delete_Some. by apply Hi.
  - intros f w. destruct (decide (f = nm)) as [->|Hne].
    + rewrite lookup_insert_eq. intros [= <-]. exists k. split; [done|].
      by eapply field_valid_mono.
    + rewrite lookup_insert_ne by done. apply Hi.
Qed.

Lemma run_preserves_held (t : EntryType) (year_now : Z) (ops : list Operation)
    (inst : Instance) :
  Forall (no_later_than year_now) ops →
  held_valid t year_now inst →
  held_valid t year_now (run (class_of t) inst ops).
Proof.
  intros Hops. revert inst. induction Hops as [|op ops Hop _ IH]; intros inst Hi.
  - done.
  - simpl. apply IH. by apply step_preserves_held.
Qed.

Lemma run_preserves_valid (t : EntryType) (year_now : Z) (ops : list Operation)
    (inst : Instance) :
  Forall (no_later_than year_now) ops →
  Forall is_assignment ops →
  instance_valid t year_now inst →
  instance_valid t year_now (run (class_of t) inst ops).
Proof.
  intros Hops. revert inst.
  induction Hops as [|op ops Hop _ IH]; intros inst Ha Hi; [done|].
  apply Forall_cons in Ha as [Hop' Ha]. simpl. apply IH; [done|].
  destruct op as [y nm v|nm]; [|done]. simpl.
  by apply setattr_preserves_valid.
Qed.

Lemma init_held_valid (t : EntryType) (year_now : Z) (kw : Kwargs) (inst : Instance) :
  init (class_of t) year_now kw = Ok inst → held_valid t year_now inst.
Proof.
  intros Hi f v Hl. pose proof (init_instance_valid _ _ _ _ Hi) as Hv.
  apply init_entry_Ok in Hi as (_ & _ & Hd & _).
  assert (f ∈ field_names t) as ([f' k] & -> & Hf)%list_elem_of_fmap_1.
  { rewrite <- (elem_of_list_to_set (C := gset string)), <- Hd.
    apply elem_of_dom. eauto. }
  destruct (Hv _ _ Hf) as (v' & Hl' & Hfv). simpl in Hl.
  exists k. split; [done|]. congruence.
Qed.

Lemma held_valid_mono (t : EntryType) (year_now year_now' : Z) (inst : Instance) :
  year_now <= year_now' → held_valid t year_now inst → held_valid t year_now' inst.
Proof.
  intros Hle Hi f v Hl. destruct (Hi _ _ Hl) as (k & Hf & Hv).
  exists k. split; [done|]. by eapply field_valid_mono.
Qed.

Lemma held_valid_dom (t : EntryType) (year_now : Z) (inst : Instance) :
  held_valid t year_now inst → dom inst ⊆ list_to_set (field_names t).
Proof.
  intros Hi f [v Hl]%elem_of_dom. destruct (Hi _ _ Hl) as (k & Hf & _).
  apply elem_of_list_to_set. by eapply field_name_declared.
Qed.

(** C10 (amended). After construction, assigning to a field runs the
    converter and the validators of the field: the converted value is
    stored when the validators accept it, and otherwise the assignment
    raises and the instance is left as it was.  Hence, after any sequence
    of assignments and deletions, every field that the instance holds
    satisfies its validation predicate, and after assignments alone every
    declared field is held and satisfies it (in the year of observation,
    no earlier than the years of construction and of the assignments).
    A deletion leaves its field unset. *)
Theorem held_fields_stay_valid (t : EntryType) (year_built year_now : Z)
    (kw : Kwargs) (inst : Instance) (ops : list Operation) :
  init (class_of t) year_built kw = Ok inst →
  year_built <= year_now →
  Forall (no_later_than year_now) ops →
  let state := run (class_of t) inst ops in
  held_valid t year_now state
  ∧ (Forall is_assignment ops → instance_valid t year_now state)
  ∧ ∀ f k v y, (f, k) ∈ fields t →
      match stored k (Some v) with
      | Some v' =>
          if decide (field_valid y k v')
          then setattr (class_of t) y state f v = (<[f := v']> state, Ok tt)
          else ∃ e, setattr (class_of t) y state f v = (state, Raise e)
      | None => ∃ e, setattr (class_of t) y state f v = (state, Raise e)
      end.
Proof.
  intros Hi Hle Hops state. split; [|split].
  - apply run_preserves_held; [done|].
    eapply held_valid_mono; [exact Hle|]. by eapply init_held_valid.
  - intros Ha. apply run_preserves_valid; [done|done|].
    eapply instance_valid_mono; [exact Hle|]. by eapply init_instance_valid.
  - intros f k v y Hf. by apply setattr_declared.
Qed.

Lemma held_fields_stay_valid_witness :
  let state := run Book (constructed Book clean_code)
                 [Assign 2026 "title" (PStr "Clean Architecture");
                  Assign 2027 "year" (PStr "2999");
                  Delete "note";
                  Assign 2027 "year" (PFloat float_2008_9);
                  Assign 2027 "note" (PInt 42)] in
  held_valid BookT 2027 state
  ∧ (Forall is_assignment
       [Assign 2026 "title" (PStr "Clean Architecture");
        Assign 2027 "year" (PStr "2999");
        Delete "note";
        Assign 2027 "year" (PFloat float_2008_9);
        Assign 2027 "note" (PInt 42)] →
     instance_valid BookT 2027 state)
  ∧ ∀ f k v y, (f, k) ∈ fields BookT →
      match stored k (Some v) with
      | Some v' =>
          if decide (field_valid y k v')
          then setattr Book y state f v = (<[f := v']> state, Ok tt)
          else ∃ e, setattr Book y state f v = (state, Raise e)
      | None => ∃ e, setattr Book y state f v = (state, Raise e)
      end.
Proof.
  apply (held_fields_stay_valid BookT 2026 2027 clean_code).
  - vm_compute. reflexivity.
  - lia.
  - repeat constructor; simpl; lia.
Defined.

(** C10, as stated, fails: after [del] of the title of a constructed
    [Book] the instance has no title, so this observable state does not
    satisfy the predicate of every field. *)
Lemma deletion_leaves_field_unset :
  ∃ inst,
    init Book 2026 clean_code = Ok inst
    ∧ delattr Book inst "title" = (delete "title" inst, Ok tt)
    ∧ run Book inst [Delete "title"] !! "title" = None
    ∧ ¬ instance_valid BookT 2026 (run Book inst [Delete "title"]).
Proof.
  exists (constructed Book clean_code).
  split; [vm_compute; reflexivity|]. split; [vm_compute; reflexivity|].
  assert (run Book (constructed Book clean_code) [Delete "title"] !! "title"
          = None) as Hn by (vm_compute; reflexivity).
  split; [done|]. intros Hv.
  destruct (Hv "title" KString) as (v & Hl & _).
  - apply (bool_decide_unpack _). vm_compute. exact I.
  - unfold class_of in Hl. rewrite Hn in Hl. discriminate.
Qed.

Lemma run_dom (t : EntryType) (ops : list Operation) (inst : Instance) :
  dom inst ⊆ list_to_set (field_names t) →
  dom (run (class_of t) inst ops) ⊆ list_to_set (field_names t).
Proof.
  revert inst. induction ops as [|op ops IH]; intros inst Hd; [done|].
  simpl. apply IH.
  destruct (step_cases t inst op)
    as [->|[[nm ->]|(y & nm & v & k & v' & _ & Hf & _ & ->)]]; [done|..].
  - rewrite dom_delete_L. intros g [Hg _]%elem_of_difference. by apply Hd.
  - rewrite dom_insert_L. apply union_subseteq. split; [|done].
    apply singleton_subseteq_l, elem_of_list_to_set.
    by eapply field_name_declared.
Qed.

(** C3 (amended). An instance is built in one step, with all its
    declared fields holding valid values, but it is not immutable.  An
    assignment to a declared field of a value whose conversion passes the
    validators of the field stores the converted value in that field and
    changes nothing else; an assignment whose value fails conversion or
    validation, or that names no declared field, raises and leaves the
    instance as it was.  [del] removes a declared field that is held and
    raises otherwise.  No attribute outside the declared fields is ever
    added. *)
Theorem instance_changes_through_checks (t : EntryType) (year_built : Z)
    (kw : Kwargs) (inst : Instance) :
  init (class_of t) year_built kw = Ok inst →
  (dom inst = list_to_set (field_names t) ∧ instance_valid t year_built inst)
  ∧ (∀ state y nm v,
       (∀ k, (nm, k) ∈ fields t →
          match stored k (Some v) with
          | Some v' =>
              if decide (field_valid y k v')
              then setattr (class_of t) y state nm v = (<[nm := v']> state, Ok tt)
                   ∧ <[nm := v']> state !! nm = Some v'
                   ∧ ∀ g, g ≠ nm → <[nm := v']> state !! g = state !! g
              else ∃ e, setattr (class_of t) y state nm v = (state, Raise e)
          | None => ∃ e, setattr (class_of t) y state nm v = (state, Raise e)
          end)
       ∧ (nm ∉ field_names t →
          ∃ e, setattr (class_of t) y state nm v = (state, Raise e)))
  ∧ (∀ state nm,
       (nm ∈ field_names t → is_Some (state !! nm) →
        delattr (class_of t) state nm = (delete nm state, Ok tt))
       ∧ (nm ∉ field_names t ∨ state !! nm = None →
          ∃ e, delattr (class_of t) state nm = (state, Raise e)))
  ∧ (∀ ops, dom (run (class_of t) inst ops) ⊆ list_to_set (field_names t)).
Proof.
  intros Hi. split; [|split; [|split]].
  - split; [|by eapply init_instance_valid].
    by apply init_entry_Ok in Hi as (_ & _ & Hd & _).
  - intros state y nm v. split.
    + intros k Hf. pose proof (setattr_declared t y state nm k v Hf) as H.
      destruct (stored k (Some v)) as [v'|]; [|done].
      destruct (decide (field_valid y k v')); [|done].
      split; [done|]. split; [apply lookup_insert_eq|].
      intros g Hg. by apply lookup_insert_ne.
    + intros Hn. unfold setattr. rewrite (find_attr_undeclared _ _ Hn).
      by eexists.
  - intros state nm. apply delattr_cases.
  - intros ops. apply run_dom.
    by apply init_entry_Ok in Hi as (_ & _ & -> & _).
Qed.

Lemma instance_changes_through_checks_witness :
  dom (constructed Book clean_code) = list_to_set (field_names BookT)
  ∧ instance_valid BookT 2026 (constructed Book clean_code).
Proof.
  apply (instance_changes_through_checks BookT 2026 clean_code
           (constructed Book clean_code)).
  vm_compute. reflexivity.
Defined.

(** ** When the length error is the error raised *)

Lemma validate_Raise_too_long (year_now : Z) (f : string) (k : Kind) (x : PyVal) :
  validate (declaration (f, k)) year_now x = Raise too_long_error →
  k ≠ KYear
  ∧ ∃ s, x = PStr s ∧ 5000 < PyString.len s ∧ (k = KAuthor → name_format s).
Proof.
  unfold validate.
  destruct k; cbn -[check_name check_len check_year];
    destruct x as [|b|n|fl|s]; cbn -[check_name check_len check_year];
    try discriminate.
  - (* author *)
    intros [Hn|([] & Hn & [Hl|([] & _ & [=])]%rbind_Raise)]%rbind_Raise.
    + by apply check_name_Raise in Hn as [[=] _].
    + apply check_len_Raise in Hl as [_ Hl]. split; [done|].
      exists s. split; [done|]. split; [done|]. intros _.
      by eapply check_name_Ok.
  - (* required string *)
    intros [Hl|([] & _ & [=])]%rbind_Raise.
    apply check_len_Raise in Hl as [_ Hl]. split; [done|]. by exists s.
  - (* year, a boolean *)
    intros [Hy|([] & _ & [=])]%rbind_Raise. revert Hy.
    unfold check_year. simpl. destruct (_ <? Z.b2z b); simpl; [discriminate|].
    destruct b; discriminate.
  - (* year, an integer *)
    intros [Hy|([] & _ & [=])]%rbind_Raise.
    by apply check_year_Raise in Hy as [[=] _].
  - (* optional *)
    intros [Hl|([] & _ & [=])]%rbind_Raise.
    apply check_len_Raise in Hl as [_ Hl]. split; [done|]. by exists s.
Qed.

Lemma int_not_too_long (v : PyVal) : Builtins.int v ≠ Raise too_long_error.
Proof.
  intros [[=]|[[=]|[[=]|(s & _ & [[=]|[d [=]]])]]]%int_Raise_cases.
Qed.

Lemma length_check_first_raises (t : EntryType) (year_now : Z) (kw : Kwargs) :
  length_check_first t year_now kw →
  init (class_of t) year_now kw = Raise too_long_error.
Proof.
  intros (Hd & Hm & (v & n & Hy & Hn)
          & pre & f & k & s & post & Hl & Hk & Hkw & Hlen & Hname & Hpre).
  pose proof (binds_entry _ _ Hd Hm) as Hb.
  apply init_Raise_intro.
  apply (Failure_validate _ _ _ (declaration <$> pre) (declaration (f, k))
           (declaration <$> post)); [done|..].
  - rewrite Forall_forall. intros a (g & j & Hg & ->)%attr_declared.
    destruct (decide (j = KYear)) as [->|Hj]; [|by apply converts_no_converter].
    apply year_field_unique in Hg as ->.
    unfold converts, bound_value, argument, convert. simpl. rewrite Hy. simpl.
    rewrite Hn. by eexists.
  - by rewrite class_of_fields, Hl, fmap_app.
  - rewrite Forall_fmap. eapply Forall_impl; [exact Hpre|].
    intros [g j] Hg. simpl in *. by apply field_accepted in Hg as (_ & _ & Hg).
  - assert (assigned_value kw (declaration (f, k)) = PStr s) as ->.
    { unfold assigned_value, bound_value, argument, convert.
      rewrite declaration_name, Hkw. by destruct k. }
    by apply too_long_raised.
Qed.

Lemma too_long_raised_first (t : EntryType) (year_now : Z) (kw : Kwargs) :
  init (class_of t) year_now kw = Raise too_long_error →
  length_check_first t year_now kw.
Proof.
  intros HF%init_Raise_inv. remember too_long_error as e eqn:He.
  destruct HF as [Hd|Hd Hm|pre a post e Hb Hl Hpre Ha|pre a post e Hb Hc Hl Hpre Ha];
    [discriminate|discriminate|..].
  - (* a converter *)
    exfalso. subst e. revert Ha. unfold convert.
    assert (a ∈ cls_attrs (class_of t)) as (f & k & Hf & ->)%attr_declared
      by (rewrite Hl, elem_of_app; right; left).
    destruct k; simpl; try discriminate.
    destruct (Builtins.int _) eqn:Hi; simpl; [discriminate|].
    intros [= ->]. by apply int_not_too_long in Hi.
  - (* a validator *)
    subst e. pose proof Hb as [Hd Hargs].
    rewrite class_of_names in Hd. rewrite Forall_forall in Hargs, Hc.
    pose proof Hl as Hsplit. rewrite class_of_fields in Hsplit.
    apply fmap_app_inv in Hsplit as (l1 & l2' & -> & Hl2 & Hfields).
    symmetry in Hl2.
    apply fmap_cons_inv in Hl2 as ([f k] & l2 & -> & -> & ->).
    assert ((f, k) ∈ fields t) as Hf
      by (rewrite Hfields, elem_of_app; right; left).
    apply validate_Raise_too_long in Ha as (Hk & s & Hs & Hlen & Hname).
    split; [done|]. split.
    { rewrite <- missing_class_of. apply missing_nil. by apply Forall_forall. }
    split.
    { pose proof (Hargs _ (declared_attr _ _ _ (year_field t))) as [v Hv].
      pose proof (Hc _ (declared_attr _ _ _ (year_field t))) as [w Hw].
      revert Hv Hw. unfold bound_value, argument, convert. simpl.
      destruct (kw !! "year") as [v'|]; [|discriminate].
      intros [= ->]. simpl. destruct (Builtins.int v) as [n|] eqn:Hn; [|done].
      intros _. by exists v, n. }
    exists l1, f, k, s, l2.
    split; [done|]. split; [done|]. split; [|split; [done|split; [done|]]].
    + pose proof (Hargs _ (declared_attr _ _ _ Hf)) as [v Hv].
      revert Hs Hv. unfold assigned_value, bound_value, argument, convert.
      rewrite declaration_name.
      destruct (kw !! f) as [v'|]; destruct k; simpl; try done;
        try (by intros ->); by intros ? [= <-].
    + rewrite Forall_fmap in Hpre. rewrite Forall_forall in Hpre |- *.
      intros [g j] Hg. simpl. apply field_accepted.
      assert (declaration (g, j) ∈ cls_attrs (class_of t)) as Hin.
      { apply declared_attr. rewrite Hfields, elem_of_app. by left. }
      split; [by apply Hargs|]. split; [by apply Hc|]. by apply (Hpre _ Hg).
Qed.

(** C5 (amended). A string of more than 5000 characters given for a
    string field (required, or optional and given) makes construction
    fail, whatever the string contains.  Construction fails with the
    length error exactly when the length check of such a field is the
    first step to fail: the keywords bind, the year converts, every field
    declared before that field is valid and, for the author, the string
    has the name format; fields declared after it may be invalid.  In
    particular the length error is raised only when some string field
    holds more than 5000 characters. *)
Theorem too_long_error_iff (t : EntryType) (year_now : Z) (kw : Kwargs)
    (f : string) (k : Kind) (s : string) :
  (f, k) ∈ fields t → k ≠ KYear →
  kw !! f = Some (PStr s) → 5000 < PyString.len s →
  (∃ e, init (class_of t) year_now kw = Raise e)
  ∧ (∀ kw', init (class_of t) year_now kw' = Raise too_long_error
            ↔ length_check_first t year_now kw')
  ∧ (∀ kw', init (class_of t) year_now kw' = Raise too_long_error →
            violates t year_now kw' FieldTooLong).
Proof.
  intros Hf Hk Hkw Hl. split; [|split].
  - destruct (init (class_of t) year_now kw) as [inst|e] eqn:Hi; [|by exists e].
    apply init_entry_Ok in Hi as (_ & Hin & _).
    specialize (Hin _ _ Hf). rewrite Hkw in Hin. unfold input_valid in Hin.
    destruct k; simpl in Hin; try done; lia || (destruct Hin; lia).
  - intros kw'. split;
      [apply too_long_raised_first|apply length_check_first_raises].
  - intros kw' Hi. apply init_Raise_inv, failure_diagnosed in Hi
      as (c & [= <-] & Hviol). done.
Qed.

Lemma too_long_error_iff_witness :
  (∃ e, init Article 2026
          (<["journal" := PStr long_token]> (<["title" := PNone]> apprenticeship))
        = Raise e)
  ∧ (∀ kw', init Article 2026 kw' = Raise too_long_error
            ↔ length_check_first ArticleT 2026 kw')
  ∧ (∀ kw', init Article 2026 kw' = Raise too_long_error →
            violates ArticleT 2026 kw' FieldTooLong).
Proof.
  apply (too_long_error_iff ArticleT 2026
           (<["journal" := PStr long_token]> (<["title" := PNone]> apprenticeship))
           "journal" KString long_token).
  - apply (bool_decide_unpack _). vm_compute. exact I.
  - discriminate.
  - vm_compute. reflexivity.
  - vm_compute. reflexivity.
Defined.

(** An [Article] whose journal is too long and whose title, declared
    after the journal, is [None]: the length error is the error raised. *)
Example scenario_length_error_before_later_field :
  init Article 2026
    (<["journal" := PStr long_token]> (<["title" := PNone]> apprenticeship))
  = Raise too_long_error.
Proof. vm_compute. reflexivity. Qed.

Example scenario_digit_limit :
  Builtins.int (PStr (PyString.replicate (Z.to_nat 4297) "0" +:+ "2008"))
  = Raise (DigitLimit 4301)
  ∧ Builtins.int (PStr (PyString.replicate (Z.to_nat 4296) "0" +:+ "2008"))
    = Ok 2008
  ∧ Builtins.int (PStr (PyString.replicate (Z.to_nat 4301) "1" +:+ "x"))
    = Raise (DigitLimit 4301)
  ∧ Builtins.int (PStr (PyString.replicate (Z.to_nat 4301) "1" +:+ "_"))
    = Raise (InvalidLiteral (PyString.replicate (Z.to_nat 4301) "1" +:+ "_")).
Proof. repeat split; vm_compute; reflexivity. Qed.
